(** * Planetmint transaction core and tarantool queries: a shallow embedding

    The development follows the layout of the Python sources:

    - [planetmint/transactions/common/transaction.py]: class [Transaction]
      (constructor, [to_dict], [from_dict], [validate_id], [sign],
      [inputs_valid], [validate_transfer_inputs], the type registry);
    - [planetmint/backend/tarantool/query.py]: [latest_block] and
      [get_validator_set];
    - [planetmint/__init__.py]: the registrations of the type registry.

    Python exceptions are values of [exn]; a call that may raise returns a
    [result].  Methods that assign to attributes of [self] return the final
    state of the object together with the outcome of the call. *)

From Stdlib Require Import ZArith List String Ascii Bool Lia.
From Stdlib Require Import DecimalString.
From stdpp Require Import base option list gmap strings.

Local Open Scope string_scope.
Local Open Scope Z_scope.

(** ** Exceptions and results *)

Inductive exn : Type :=
| ValueError | TypeError | KeyError | AttributeError | IndexError
| InvalidHash | KeypairMismatchException | InputDoesNotExist | DoubleSpend
| InvalidSignature | AmountError | AssetIdMismatch
| ParsingError | ASN1DecodeError | ASN1EncodeError
| NameError
| OtherError (name : string).

Inductive result (A : Type) : Type :=
| Ok (a : A)
| Raise (e : exn).
Arguments Ok {A} a.
Arguments Raise {A} e.

#[global] Instance result_ret : MRet result := fun A a => Ok a.
#[global] Instance result_bind : MBind result := fun A B k r =>
  match r with
  | Ok a => k a
  | Raise e => Raise e
  end.

(** [[f(x) for x in l]]: the comprehension stops at the first exception. *)
Fixpoint mapM {A B : Type} (f : A -> result B) (l : list A) : result (list B) :=
  match l with
  | [] => Ok []
  | x :: l' => y ← f x; ys ← mapM f l'; Ok (y :: ys)
  end.

#[global] Instance exn_eq_dec : EqDecision exn.
Proof. solve_decision. Defined.

(** ** JSON-shaped Python values

    A [dict] keeps its insertion order; it is a list of bindings whose keys
    are pairwise distinct. *)

#[warnings="-register-all"]
Inductive json : Type :=
| JNull
| JBool (b : bool)
| JInt (n : Z)
| JStr (s : string)
| JList (l : list json)
| JDict (d : list (string * json)).

Section json_induction.
Variable P : json -> Prop.
Hypothesis HNull : P JNull.
Hypothesis HBool : forall b, P (JBool b).
Hypothesis HInt : forall n, P (JInt n).
Hypothesis HStr : forall s, P (JStr s).
Hypothesis HList : forall l, Forall P l -> P (JList l).
Hypothesis HDict : forall d, Forall (fun kv => P (snd kv)) d -> P (JDict d).

Fixpoint json_ind' (v : json) : P v :=
  match v with
  | JNull => HNull
  | JBool b => HBool b
  | JInt n => HInt n
  | JStr s => HStr s
  | JList l =>
      HList l ((fix go (l : list json) : Forall P l :=
                  match l with
                  | [] => @List.Forall_nil _ P
                  | x :: l' => @List.Forall_cons _ P x l' (json_ind' x) (go l')
                  end) l)
  | JDict d =>
      HDict d ((fix go (d : list (string * json))
                 : Forall (fun kv => P (snd kv)) d :=
                  match d with
                  | [] => @List.Forall_nil _ _
                  | kv :: d' =>
                      @List.Forall_cons _ (fun kv => P (snd kv)) kv d'
                        (json_ind' (snd kv)) (go d')
                  end) d)
  end.
End json_induction.

(** [a == b] where the code compares identifiers: strings or [None]. *)
Fixpoint json_eqb (a b : json) {struct a} : bool :=
  match a, b with
  | JNull, JNull => true
  | JBool x, JBool y => Bool.eqb x y
  | JInt x, JInt y => Z.eqb x y
  | JStr x, JStr y => String.eqb x y
  | JList x, JList y =>
      (fix go (x y : list json) {struct x} : bool :=
         match x, y with
         | [], [] => true
         | u :: x', v :: y' => json_eqb u v && go x' y'
         | _, _ => false
         end) x y
  | JDict x, JDict y =>
      (fix go (x y : list (string * json)) {struct x} : bool :=
         match x, y with
         | [], [] => true
         | (k, u) :: x', (k', v) :: y' =>
             String.eqb k k' && json_eqb u v && go x' y'
         | _, _ => false
         end) x y
  | _, _ => false
  end.

(** [d[k]] and [d.get(k)]. *)
Fixpoint dict_get (d : list (string * json)) (k : string) : option json :=
  match d with
  | [] => None
  | (k', v) :: d' => if String.eqb k k' then Some v else dict_get d' k
  end.

(** [d[k] = v]: an existing key keeps its position, a new key goes last. *)
Fixpoint dict_set (d : list (string * json)) (k : string) (v : json)
  : list (string * json) :=
  match d with
  | [] => [(k, v)]
  | (k', v') :: d' =>
      if String.eqb k k' then (k', v) :: d' else (k', v') :: dict_set d' k v
  end.

(** [v[k]] on an arbitrary value: [KeyError] for a missing key, [TypeError]
    when [v] is not subscriptable by a string. *)
Definition getitem (v : json) (k : string) : result json :=
  match v with
  | JDict d =>
      match dict_get d k with
      | Some x => Ok x
      | None => Raise KeyError
      end
  | _ => Raise TypeError
  end.

(** ** SHA3-256

    [hashlib.sha3_256]: Keccak-f[1600] on 25 lanes of 64 bits, rate 136
    bytes, domain byte 0x06.  A lane is a [Z] below [2^64]; byte strings
    are Rocq strings. *)

Module SHA3.

Definition mask64 : Z := Z.ones 64.

Definition rotl64 (x : Z) (n : Z) : Z :=
  Z.lor (Z.land (Z.shiftl x n) mask64) (Z.shiftr x (64 - n)).

Definition lane (st : list Z) (x y : nat) : Z :=
  nth ((x mod 5) + 5 * (y mod 5))%nat st 0.

Definition round_constants : list Z :=
  [ 0x0000000000000001; 0x0000000000008082; 0x800000000000808A;
    0x8000000080008000; 0x000000000000808B; 0x0000000080000001;
    0x8000000080008081; 0x8000000000008009; 0x000000000000008A;
    0x0000000000000088; 0x0000000080008009; 0x000000008000000A;
    0x000000008000808B; 0x800000000000008B; 0x8000000000008089;
    0x8000000000008003; 0x8000000000008002; 0x8000000000000080;
    0x000000000000800A; 0x800000008000000A; 0x8000000080008081;
    0x8000000000008080; 0x0000000080000001; 0x8000000080008008 ].

(** Rotation offsets, indexed by [x + 5 * y]. *)
Definition rotation_offsets : list Z :=
  [  0;  1; 62; 28; 27;
    36; 44;  6; 55; 20;
     3; 10; 43; 25; 39;
    41; 45; 15; 21;  8;
    18;  2; 61; 56; 14 ].

Definition coords : list (nat * nat) :=
  flat_map (fun y => map (fun x => (x, y)) (seq 0 5)) (seq 0 5).

Definition theta (st : list Z) : list Z :=
  let c := map (fun x =>
                  Z.lxor (lane st x 0)
                    (Z.lxor (lane st x 1)
                       (Z.lxor (lane st x 2)
                          (Z.lxor (lane st x 3) (lane st x 4)))))
             (seq 0 5) in
  let d := map (fun x =>
                  Z.lxor (nth ((x + 4) mod 5)%nat c 0)
                    (rotl64 (nth ((x + 1) mod 5)%nat c 0) 1))
             (seq 0 5) in
  map (fun '(x, y) => Z.lxor (lane st x y) (nth x d 0)) coords.

(** [B[y, 2x+3y] = rot(A[x, y], r[x, y])]: the lane at [(X, Y)] of the
    result comes from [(x, y)] with [x = (X + 3 * Y) mod 5], [y = X]. *)
Definition rho_pi (st : list Z) : list Z :=
  map (fun '(X, Y) =>
         let x := ((X + 3 * Y) mod 5)%nat in
         let y := X in
         rotl64 (lane st x y) (nth (x + 5 * y)%nat rotation_offsets 0))
    coords.

Definition chi (st : list Z) : list Z :=
  map (fun '(x, y) =>
         Z.lxor (lane st x y)
           (Z.land (Z.lxor (lane st (x + 1) y) mask64) (lane st (x + 2) y)))
    coords.

Definition iota (rc : Z) (st : list Z) : list Z :=
  match st with
  | [] => []
  | a :: st' => Z.lxor a rc :: st'
  end.

Definition keccak_round (st : list Z) (rc : Z) : list Z :=
  iota rc (chi (rho_pi (theta st))).

Definition keccak_f (st : list Z) : list Z :=
  fold_left keccak_round round_constants st.

Definition rate : nat := 136.

Definition byte_of (c : ascii) : Z := Z.of_N (N_of_ascii c).
Definition ascii_of (b : Z) : ascii := ascii_of_N (Z.to_N b).

Fixpoint bytes_of_string (s : string) : list Z :=
  match s with
  | EmptyString => []
  | String c s' => byte_of c :: bytes_of_string s'
  end.

(** SHA3 padding: 0x06, zeros, and 0x80 in the last byte of the block. *)
Definition pad (msg : list Z) : list Z :=
  let q := (rate - (length msg mod rate))%nat in
  if (q =? 1)%nat then msg ++ [0x86]
  else msg ++ [0x06] ++ repeat 0 (q - 2) ++ [0x80].

(** Eight bytes, little endian, to a lane. *)
Definition lane_of_bytes (bs : list Z) : Z :=
  fold_right (fun b acc => b + 256 * acc) 0 bs.

Fixpoint lanes_of_bytes (n : nat) (bs : list Z) : list Z :=
  match n with
  | O => []
  | S n' => lane_of_bytes (firstn 8 bs) :: lanes_of_bytes n' (skipn 8 bs)
  end.

Fixpoint xor_lanes (st blk : list Z) : list Z :=
  match st, blk with
  | a :: st', b :: blk' => Z.lxor a b :: xor_lanes st' blk'
  | _, [] => st
  | [], _ => []
  end.

Fixpoint absorb (nblocks : nat) (bs : list Z) (st : list Z) : list Z :=
  match nblocks with
  | O => st
  | S n' =>
      absorb n' (skipn rate bs)
        (keccak_f (xor_lanes st (lanes_of_bytes 17 (firstn rate bs))))
  end.

Fixpoint bytes_of_lane (n : nat) (l : Z) : list Z :=
  match n with
  | O => []
  | S n' => Z.land l 255 :: bytes_of_lane n' (Z.shiftr l 8)
  end.

Definition digest_bytes (msg : list Z) : list Z :=
  let p := pad msg in
  let st := absorb (length p / rate) p (repeat 0 25) in
  flat_map (bytes_of_lane 8) (firstn 4 st).

Definition hex_digit (n : Z) : ascii :=
  nth (Z.to_nat n)
    (list_ascii_of_string "0123456789abcdef") "0"%char.

Fixpoint hex_of_bytes (bs : list Z) : string :=
  match bs with
  | [] => EmptyString
  | b :: bs' =>
      String (hex_digit (Z.shiftr b 4))
        (String (hex_digit (Z.land b 15)) (hex_of_bytes bs'))
  end.

(** [sha3_256(s).digest()] *)
Definition digest (s : string) : string :=
  string_of_list_ascii (map ascii_of (digest_bytes (bytes_of_string s))).

(** [sha3_256(s).hexdigest()] *)
Definition hexdigest (s : string) : string :=
  hex_of_bytes (digest_bytes (bytes_of_string s)).

End SHA3.

(** ** Canonical codec ([planetmint.transactions.common.utils.serialize],
       [planetmint.transactions.common.crypto.hash_data]) *)

Module Codec.

(** [str(n)] for a Python [int]. *)
Definition str_of_int (n : Z) : string :=
  NilZero.string_of_int (Z.to_int n).

(** The double quote character. *)
Definition dquote : ascii := ascii_of_N 34.

Definition hex_upper (n : Z) : ascii :=
  nth (Z.to_nat n)
    (list_ascii_of_string "0123456789ABCDEF") "0"%char.

(** One character of a JSON string literal: the quote, the backslash and
    the control characters are escaped, every other byte is copied. *)
Definition escape_char (c : ascii) : string :=
  let n := SHA3.byte_of c in
  if n =? 34 then String "\"%char (String dquote EmptyString)
  else if n =? 92 then "\\"
  else if n =? 8 then "\b"
  else if n =? 12 then "\f"
  else if n =? 10 then "\n"
  else if n =? 13 then "\r"
  else if n =? 9 then "\t"
  else if n <? 32 then
    "\u00" ++ String (hex_upper (Z.shiftr n 4))
               (String (hex_upper (Z.land n 15)) EmptyString)
  else String c EmptyString.

Fixpoint escape (s : string) : string :=
  match s with
  | EmptyString => EmptyString
  | String c s' => escape_char c ++ escape s'
  end.

Definition quote (s : string) : string :=
  String dquote (escape s ++ String dquote EmptyString).

Fixpoint join (sep : string) (l : list string) : string :=
  match l with
  | [] => EmptyString
  | [x] => x
  | x :: l' => x ++ sep ++ join sep l'
  end.

(** Members of an object, ordered by key (stable insertion sort). *)
Fixpoint insert_member (m : string * string) (l : list (string * string))
  : list (string * string) :=
  match l with
  | [] => [m]
  | m' :: l' =>
      if String.leb (fst m) (fst m') then m :: m' :: l'
      else m' :: insert_member m l'
  end.

Definition sort_members (l : list (string * string))
  : list (string * string) :=
  fold_right insert_member [] l.

(** Modelled from the spec: [serialize], the canonical serialization of
    section 4.1 (object keys sorted lexicographically, no insignificant
    whitespace, numbers as they are, escapes only where JSON requires
    them, UTF-8 output).  The module [utils] is not part of the sources
    at hand. *)
Fixpoint serialize (v : json) : string :=
  match v with
  | JNull => "null"
  | JBool true => "true"
  | JBool false => "false"
  | JInt n => str_of_int n
  | JStr s => quote s
  | JList l => "[" ++ join "," (map serialize l) ++ "]"
  | JDict d =>
      "{" ++ join ","
               (map (fun m => quote (fst m) ++ ":" ++ snd m)
                  (sort_members
                     (map (fun kv => (fst kv, serialize (snd kv))) d)))
          ++ "}"
  end.

(** Modelled from the spec: [hash_data], SHA3-256 of the UTF-8 bytes of
    the string, rendered as lowercase hex (section 4.1).  The module
    [crypto] is not part of the sources at hand. *)
Definition hash_data (data : string) : string := SHA3.hexdigest data.

End Codec.


(** ** More on Python values *)

(** Truth value of a JSON-shaped object ([if v:]). *)
Definition truthy (v : json) : bool :=
  match v with
  | JNull => false
  | JBool b => b
  | JInt n => negb (n =? 0)
  | JStr s => negb (String.eqb s EmptyString)
  | JList l => match l with [] => false | _ => true end
  | JDict d => match d with [] => false | _ => true end
  end.

(** [v[k] = x] *)
Definition setitem (v : json) (k : string) (x : json) : result json :=
  match v with
  | JDict d => Ok (JDict (dict_set d k x))
  | _ => Raise TypeError
  end.

(** [for x in v]: the elements a [for] loop or a comprehension visits. *)
Definition iterate (v : json) : result (list json) :=
  match v with
  | JList l => Ok l
  | JDict d => Ok (map (fun kv => JStr (fst kv)) d)
  | JStr s => Ok (map (fun c => JStr (String c EmptyString))
                    (list_ascii_of_string s))
  | _ => Raise TypeError
  end.

(** [l[i]] on a list: negative indices count from the end. *)
Definition py_index {A : Type} (l : list A) (i : Z) : result A :=
  let n := Z.of_nat (length l) in
  let j := if i <? 0 then i + n else i in
  if (0 <=? j) && (j <? n) then
    match nth_error l (Z.to_nat j) with
    | Some x => Ok x
    | None => Raise IndexError
    end
  else Raise IndexError.

(** [copy.deepcopy]: the callee works on a private copy, so that nothing
    it assigns reaches the object of the caller.  Values are immutable
    here; the copy is the value itself. *)
Definition deepcopy {A : Type} (x : A) : A := x.

(** [rapidjson.loads(rapidjson.dumps(v))]: a structural copy. *)
Fixpoint rapidjson_reload (v : json) : json :=
  match v with
  | JNull => JNull
  | JBool b => JBool b
  | JInt n => JInt n
  | JStr s => JStr s
  | JList l => JList (map rapidjson_reload l)
  | JDict d => JDict (map (fun kv => (fst kv, rapidjson_reload (snd kv))) d)
  end.

(** [len(set(l))] for a list of JSON-shaped objects: the elements kept
    are the first occurrences. *)
Fixpoint json_mem (x : json) (l : list json) : bool :=
  match l with
  | [] => false
  | y :: l' => json_eqb x y || json_mem x l'
  end.

Fixpoint json_set (l : list json) : list json :=
  match l with
  | [] => []
  | x :: l' => if json_mem x l' then json_set l' else x :: json_set l'
  end.

(** ** The data model of [transaction.py] *)

(** Crypto-condition fulfillments, as [_sign_input] tells them apart with
    [isinstance]: an Ed25519 leaf (public key and signature, both unset
    until known), a threshold node, and anything else. *)
#[warnings="-register-all"]
Inductive Fulfillment : Type :=
| Ed25519Sha256 (public_key : option string) (signature : option string)
| ThresholdSha256 (threshold : Z) (subconditions : list Fulfillment)
| OtherFulfillment (type_name : string) (body : string).

(** [TransactionLink(txid, output)] *)
Record TransactionLink : Type := {
  txid : string;
  output : Z;
}.

#[global] Instance TransactionLink_eq_dec : EqDecision TransactionLink.
Proof. solve_decision. Defined.

(** [Input(fulfillment, owners_before, fulfills)] *)
Record Input : Type := {
  fulfillment : option Fulfillment;
  owners_before : list string;
  fulfills : option TransactionLink;
}.

(** [Output(fulfillment, public_keys, amount)] *)
Record Output : Type := {
  output_fulfillment : Fulfillment;
  public_keys : list string;
  amount : Z;
}.

(** The attributes [__init__] sets on a [Transaction]. *)
Record Transaction : Type := {
  version : json;
  operation : string;
  asset : json;
  inputs : list Input;
  outputs : list Output;
  metadata : json;
  _id : json;
  tx_dict : option json;
}.

Definition CREATE : string := "CREATE".
Definition TRANSFER : string := "TRANSFER".
Definition ALLOWED_OPERATIONS : list string := [CREATE; TRANSFER].
Definition VERSION : string := "2.0".

(** What [__init__] and [from_dict] use of the class they run in: the class
    attribute [ALLOWED_OPERATIONS] and the class method [validate_schema]. *)
Record TxClass : Type := {
  cls_ALLOWED_OPERATIONS : list string;
  cls_validate_schema : json -> result unit;
}.

(** The class [Transaction] itself: [validate_schema] is [pass]. *)
Definition Transaction_class : TxClass := {|
  cls_ALLOWED_OPERATIONS := ALLOWED_OPERATIONS;
  cls_validate_schema := fun _ => Ok tt;
|}.

(** The store object handed to [validate_transfer_inputs]. *)
Record Planet : Type := {
  get_transaction : string -> option Transaction;
  get_spent : string -> Z -> list Transaction -> option Transaction;
}.

(** What [transaction.py] imports and calls without defining it: the
    crypto-conditions library, [base58], the key class of [crypto], and the
    dict converters of [Input], [Output] and [TransactionLink]. *)
Class Imports : Type := {
  (** [base58.b58decode(s)] *)
  b58decode : string -> string;
  (** [PrivateKey(k).get_verifying_key().encode().decode()] *)
  gen_public_key : string -> string;
  (** [leaf.sign(message, private_key)]: the public key and the signature
      the call stores in an Ed25519 leaf *)
  ed25519_sign : string -> string -> string * string;
  (** [f.serialize_uri()] *)
  serialize_uri : Fulfillment -> result string;
  (** [Fulfillment.from_uri(uri)] *)
  from_uri : string -> result Fulfillment;
  (** [f.condition_uri] *)
  condition_uri : Fulfillment -> string;
  (** [f.validate(message=m)] *)
  validate : Fulfillment -> string -> result bool;
  (** [input_.to_dict()], [Input.from_dict(data)] *)
  Input_to_dict : Input -> json;
  Input_from_dict : json -> result Input;
  (** [output.to_dict()], [Output.from_dict(data)] *)
  Output_to_dict : Output -> json;
  Output_from_dict : json -> result Output;
  (** [link.to_uri()] *)
  to_uri : TransactionLink -> string;
}.

(** ** Class [Transaction] *)

Section Transaction.
Context `{Imports}.

(** [isinstance(v, dict) and k in v] *)
Definition dict_with (k : string) (v : json) : bool :=
  match v with
  | JDict d => match dict_get d k with Some _ => true | None => false end
  | _ => false
  end.

Definition is_none (v : json) : bool :=
  match v with JNull => true | _ => false end.

Definition is_dict (v : json) : bool :=
  match v with JDict _ => true | _ => false end.

(** [operation not in self.ALLOWED_OPERATIONS], for the operation handed to
    the constructor: only a string can be a member of the tuple. *)
Definition allowed_operation (cls : TxClass) (operation : json)
  : option string :=
  match operation with
  | JStr op =>
      if bool_decide (op ∈ cls_ALLOWED_OPERATIONS cls) then Some op else None
  | _ => None
  end.

(** [Transaction.__init__], run in class [cls].  [inputs] and [outputs] are
    lists: [None] is the empty list ([inputs or []]). *)
Definition Transaction_init (cls : TxClass) (operation asset : json)
    (inputs : list Input) (outputs : list Output)
    (metadata version hash_id : json) (tx_dict : option json)
  : result Transaction :=
  match allowed_operation cls operation with
  | None => Raise ValueError
  | Some op =>
      if String.eqb op CREATE && negb (is_none asset)
         && negb (dict_with "data" asset)
      then Raise TypeError
      else if String.eqb op TRANSFER && negb (dict_with "id" asset)
      then Raise TypeError
      else if negb (is_none metadata) && negb (is_dict metadata)
      then Raise TypeError
      else
        Ok {| version := if is_none version then JStr VERSION else version;
              operation := op;
              asset := asset;
              inputs := inputs;
              outputs := outputs;
              metadata := metadata;
              _id := hash_id;
              tx_dict := tx_dict |}
  end.

(** [Transaction.to_dict].  The decorators [memoize_to_dict] and
    [memoize_from_dict] of [to_dict] and [from_dict], and [lru_cache] of
    [_input_valid], keep results of earlier calls; the model is the
    decorated function, called afresh. *)
Definition to_dict (self : Transaction) : json :=
  JDict [ ("inputs", JList (map Input_to_dict (inputs self)));
          ("outputs", JList (map Output_to_dict (outputs self)));
          ("operation", JStr (operation self));
          ("metadata", metadata self);
          ("asset", asset self);
          ("version", version self);
          ("id", _id self) ].

(** [Transaction._to_str] and [Transaction._to_hash] *)
Definition _to_str (value : json) : string := Codec.serialize value.
Definition _to_hash (value : string) : string := Codec.hash_data value.

(** [Transaction.serialized] *)
Definition serialized (self : Transaction) : string := _to_str (to_dict self).

(** [Transaction._hash]: the object after [self._id = hash_data(...)]. *)
Definition _hash (self : Transaction) : Transaction :=
  {| version := version self;
     operation := operation self;
     asset := asset self;
     inputs := inputs self;
     outputs := outputs self;
     metadata := metadata self;
     _id := JStr (Codec.hash_data (serialized self));
     tx_dict := tx_dict self |}.

(** [Transaction._remove_signatures] *)
Definition _remove_signatures (tx_dict : json) : result json :=
  let tx_dict := deepcopy tx_dict in
  ins ← getitem tx_dict "inputs";
  ins ← iterate ins;
  ins' ← mapM (fun input_ => setitem input_ "fulfillment" JNull) ins;
  (* the loop assigns into the elements of [tx_dict['inputs']] *)
  match tx_dict with
  | JDict d => Ok (JDict (dict_set d "inputs"
                            (match dict_get d "inputs" with
                             | Some (JList _) => JList ins'
                             | Some v => v
                             | None => JNull
                             end)))
  | _ => Raise TypeError
  end.

(** [Transaction.validate_id] *)
Definition validate_id (tx_body : json) : result unit :=
  let tx_body := rapidjson_reload tx_body in
  proposed_tx_id ←
    match getitem tx_body "id" with
    | Raise KeyError => Raise InvalidHash
    | r => r
    end;
  tx_body ← setitem tx_body "id" JNull;
  let tx_body_serialized := _to_str tx_body in
  let valid_tx_id := _to_hash tx_body_serialized in
  if negb (json_eqb proposed_tx_id (JStr valid_tx_id))
  then Raise InvalidHash
  else Ok tt.

(** *** The type registry *)

(** [Transaction.resolve_class], on the registry [Transaction.type_registry]:
    [dict.get] hashes its key, which lists and dicts do not support; a key
    that is no string is never registered. *)
Definition resolve_class (type_registry : gmap string TxClass)
    (operation : json) : result (option TxClass) :=
  let create_txn_class := type_registry !! CREATE in
  match operation with
  | JStr op =>
      Ok (match type_registry !! op with
          | Some c => Some c
          | None => create_txn_class
          end)
  | JList _ | JDict _ => Raise TypeError
  | _ => Ok create_txn_class
  end.

(** [Transaction.register_type] *)
Definition register_type (type_registry : gmap string TxClass)
    (tx_type : string) (tx_class : TxClass) : gmap string TxClass :=
  <[tx_type := tx_class]> type_registry.

(** [Transaction.from_dict].  Calling [cls(...)] evaluates the arguments
    first; a registry without an entry for the operation and for [CREATE]
    resolves to [None], which cannot be called. *)
Definition from_dict (type_registry : gmap string TxClass) (tx : json)
    (skip_schema_validation : bool) : result Transaction :=
  let operation :=
    match tx with
    | JDict d => match dict_get d "operation" with
                 | Some op => op
                 | None => JStr CREATE
                 end
    | _ => JStr CREATE
    end in
  cls ← resolve_class type_registry operation;
  (if skip_schema_validation then Ok tt
   else match cls with
        | None => Raise AttributeError
        | Some c => validate_id tx;; cls_validate_schema c tx
        end);;
  ins ← getitem tx "inputs";
  ins ← iterate ins;
  inputs ← mapM Input_from_dict ins;
  outs ← getitem tx "outputs";
  outs ← iterate outs;
  outputs ← mapM Output_from_dict outs;
  op ← getitem tx "operation";
  asset ← getitem tx "asset";
  metadata ← getitem tx "metadata";
  version ← getitem tx "version";
  hash_id ← getitem tx "id";
  match cls with
  | None => Raise TypeError
  | Some c =>
      Transaction_init c op asset inputs outputs metadata version hash_id
        (Some tx)
  end.

(** *** Signing *)

(** [sha3_256(message.encode())], updated with the link an input fulfills
    when it has one, and [digest()]: the message an input signs. *)
Definition input_message (message : string) (fulfills : option TransactionLink)
  : string :=
  SHA3.digest
    (message ++
     match fulfills with
     | Some link => txid link ++ Codec.str_of_int (output link)
     | None => EmptyString
     end).

(** The Ed25519 leaf after [leaf.sign(message, private_key)]. *)
Definition signed_leaf (message private_key : string) : Fulfillment :=
  let '(pk, sig) := ed25519_sign message private_key in
  Ed25519Sha256 (Some pk) (Some sig).

(** [f.get_subcondition_from_vk(vk)]: the Ed25519 leaves below a threshold
    node whose public key is [vk]. *)
Fixpoint get_subcondition_from_vk (f : Fulfillment) (vk : string)
  : list Fulfillment :=
  match f with
  | ThresholdSha256 _ subconditions =>
      flat_map
        (fun c =>
           match c with
           | Ed25519Sha256 pk _ =>
               if bool_decide (pk = Some vk) then [c] else []
           | ThresholdSha256 _ _ => get_subcondition_from_vk c vk
           | OtherFulfillment _ _ => []
           end)
        subconditions
  | _ => []
  end.

(** The tree after [subffill.sign(message, private_key)] on every leaf that
    [get_subcondition_from_vk(vk)] returns: the method hands out the leaf
    objects of the tree, and [sign] assigns to them. *)
Fixpoint sign_subconditions (f : Fulfillment) (vk message private_key : string)
  : Fulfillment :=
  match f with
  | ThresholdSha256 t subconditions =>
      ThresholdSha256 t
        (map
           (fun c =>
              match c with
              | Ed25519Sha256 pk _ =>
                  if bool_decide (pk = Some vk)
                  then signed_leaf message private_key
                  else c
              | ThresholdSha256 _ _ =>
                  sign_subconditions c vk message private_key
              | OtherFulfillment _ _ => c
              end)
           subconditions)
  | _ => f
  end.

Definition with_fulfillment (input_ : Input) (f : Fulfillment) : Input :=
  {| fulfillment := Some f;
     owners_before := owners_before input_;
     fulfills := fulfills input_ |}.

(** [Transaction._sign_simple_signature_fulfillment], for an input whose
    fulfillment is an Ed25519 leaf. *)
Definition _sign_simple_signature_fulfillment (input_ : Input)
    (message : string) (key_pairs : gmap string string) : result Input :=
  let input_ := deepcopy input_ in
  public_key ← py_index (owners_before input_) 0;
  let message := input_message message (fulfills input_) in
  match key_pairs !! public_key with
  | Some private_key =>
      Ok (with_fulfillment input_ (signed_leaf message (b58decode private_key)))
  | None => Raise KeypairMismatchException
  end.

(** One turn of the loop over [set(input_.owners_before)]. *)
Definition sign_owner (message : string) (key_pairs : gmap string string)
    (ccffill : Fulfillment) (owner_before : string) : result Fulfillment :=
  match get_subcondition_from_vk ccffill (b58decode owner_before) with
  | [] => Raise KeypairMismatchException
  | _ :: _ =>
      match key_pairs !! owner_before with
      | None => Raise KeypairMismatchException
      | Some private_key =>
          Ok (sign_subconditions ccffill (b58decode owner_before)
                message (b58decode private_key))
      end
  end.

Fixpoint sign_owners (message : string) (key_pairs : gmap string string)
    (ccffill : Fulfillment) (owners : list string) : result Fulfillment :=
  match owners with
  | [] => Ok ccffill
  | owner_before :: owners' =>
      ccffill' ← sign_owner message key_pairs ccffill owner_before;
      sign_owners message key_pairs ccffill' owners'
  end.

(** [Transaction._sign_threshold_signature_fulfillment], called for an
    input whose fulfillment is a threshold node.  The loop visits each
    owner once; the order of a Python [set] is not fixed, here it is the
    order of the list, repetitions dropped. *)
Definition _sign_threshold_signature_fulfillment (input_ : Input)
    (message : string) (key_pairs : gmap string string) : result Input :=
  let input_ := deepcopy input_ in
  let message := input_message message (fulfills input_) in
  match fulfillment input_ with
  | Some ccffill =>
      ccffill' ← sign_owners message key_pairs ccffill
                   (remove_dups (owners_before input_));
      Ok (with_fulfillment input_ ccffill')
  | None =>
      match remove_dups (owners_before input_) with
      | [] => Ok input_
      | _ :: _ => Raise AttributeError
      end
  end.

(** [Transaction._sign_input] *)
Definition _sign_input (input_ : Input) (message : string)
    (key_pairs : gmap string string) : result Input :=
  match fulfillment input_ with
  | Some (Ed25519Sha256 _ _) =>
      _sign_simple_signature_fulfillment input_ message key_pairs
  | Some (ThresholdSha256 _ _) =>
      _sign_threshold_signature_fulfillment input_ message key_pairs
  | _ => Raise ValueError
  end.

Definition with_inputs (self : Transaction) (ins : list Input) : Transaction :=
  {| version := version self;
     operation := operation self;
     asset := asset self;
     inputs := ins;
     outputs := outputs self;
     metadata := metadata self;
     _id := _id self;
     tx_dict := tx_dict self |}.

(** The loop [for i, input_ in enumerate(self.inputs): self.inputs[i] = ...].
    [todo] holds the inputs the iterator has not reached yet, [i] is the
    index of the first of them; the state is the object [self].  An
    exception leaves the loop with [self] as it is then. *)
Fixpoint sign_inputs (todo : list Input) (i : nat) (self : Transaction)
    (tx_serialized : string) (key_pairs : gmap string string)
  : Transaction * result unit :=
  match todo with
  | [] => (self, Ok tt)
  | input_ :: todo' =>
      match _sign_input input_ tx_serialized key_pairs with
      | Raise e => (self, Raise e)
      | Ok signed =>
          sign_inputs todo' (S i)
            (with_inputs self (<[i := signed]> (inputs self)))
            tx_serialized key_pairs
      end
  end.

(** The dict [key_pairs] that [sign] builds: public key to private key (a
    later key replaces an earlier one with the same public key). *)
Definition gen_key_pairs (private_keys : list string) : gmap string string :=
  foldl (fun m private_key => <[gen_public_key private_key := private_key]> m)
    ∅ private_keys.

(** [Transaction.sign]: the object [self] after the call, and the outcome
    of the call ([self] is what it returns).  [None] for [private_keys]
    stands for every argument that is no list. *)
Definition sign (self : Transaction) (private_keys : option (list string))
  : Transaction * result unit :=
  match private_keys with
  | None => (self, Raise TypeError)
  | Some private_keys =>
      let key_pairs := gen_key_pairs private_keys in
      let tx_dict := to_dict self in
      match _remove_signatures tx_dict with
      | Raise e => (self, Raise e)
      | Ok tx_dict =>
          let tx_serialized := _to_str tx_dict in
          match sign_inputs (inputs self) 0 self tx_serialized key_pairs with
          | (self', Raise e) => (self', Raise e)
          | (self', Ok _) => (_hash self', Ok tt)
          end
      end
  end.

(** *** Validation of the inputs *)

(** The exceptions the [except] clause of [_input_valid] names. *)
Definition caught_by_input_valid (e : exn) : bool :=
  match e with
  | TypeError | ValueError | ParsingError | ASN1DecodeError | ASN1EncodeError =>
      true
  | _ => false
  end.

(** [Transaction._input_valid] *)
Definition _input_valid (input_ : Input) (operation : string)
    (message : string) (output_condition_uri : string) : result bool :=
  match fulfillment input_ with
  | None => Raise AttributeError
  | Some ccffill =>
      match (uri ← serialize_uri ccffill; from_uri uri) with
      | Raise e => if caught_by_input_valid e then Ok false else Raise e
      | Ok parsed_ffill =>
          let output_valid :=
            if String.eqb operation CREATE then true
            else String.eqb output_condition_uri (condition_uri ccffill) in
          let message := input_message message (fulfills input_) in
          ffill_valid ← validate parsed_ffill message;
          Ok (output_valid && ffill_valid)
      end
  end.

(** [all(validate(i, cond) for i, cond in enumerate(output_condition_uris))]:
    the generator stops at the first input that is not valid. *)
Fixpoint all_valid (self : Transaction) (tx_serialized : string) (i : nat)
    (output_condition_uris : list string) : result bool :=
  match output_condition_uris with
  | [] => Ok true
  | cond :: rest =>
      match inputs self !! i with
      | None => Raise IndexError
      | Some input_ =>
          b ← _input_valid input_ (operation self) tx_serialized cond;
          if (b : bool) then all_valid self tx_serialized (S i) rest
          else Ok false
      end
  end.

(** The lines of [_inputs_valid] that build [tx_serialized], the message
    the signatures are checked against. *)
Definition validation_message (self : Transaction) : result string :=
  let tx_dict :=
    match tx_dict self with
    | Some d => if truthy d then d else to_dict self
    | None => to_dict self
    end in
  tx_dict ← _remove_signatures tx_dict;
  tx_dict ← setitem tx_dict "id" JNull;
  Ok (_to_str tx_dict).

(** [Transaction._inputs_valid] *)
Definition _inputs_valid (self : Transaction)
    (output_condition_uris : list string) : result bool :=
  if negb (length (inputs self) =? length output_condition_uris)%nat
  then Raise ValueError
  else
    tx_serialized ← validation_message self;
    all_valid self tx_serialized 0 output_condition_uris.

(** [Transaction.inputs_valid]; [outputs] is [None] by default. *)
Definition inputs_valid (self : Transaction) (outputs : option (list Output))
  : result bool :=
  if String.eqb (operation self) CREATE then
    _inputs_valid self (map (fun _ => "dummyvalue") (inputs self))
  else if String.eqb (operation self) TRANSFER then
    match outputs with
    | None => Raise TypeError
    | Some outputs =>
        _inputs_valid self
          (map (fun output => condition_uri (output_fulfillment output))
             outputs)
    end
  else Raise TypeError.

(** [Transaction.get_asset_id], for a list of transactions: the set of
    their asset ids has one element, which is returned, or more, or none
    ([pop] on the empty set). *)
Definition get_asset_id (transactions : list Transaction) : result json :=
  ids ← mapM (fun tx =>
                if String.eqb (operation tx) CREATE then Ok (_id tx)
                else getitem (asset tx) "id")
          transactions;
  match json_set ids with
  | [] => Raise KeyError
  | [asset_id] => Ok asset_id
  | _ :: _ :: _ => Raise AssetIdMismatch
  end.


(** *** [validate_transfer_inputs] *)

(** The search of [current_transactions] for the transaction an input
    points at: the loop has no [break], the last match stays. *)
Fixpoint find_current (current_transactions : list Transaction)
    (input_txid : string) (input_tx : option Transaction)
  : option Transaction :=
  match current_transactions with
  | [] => input_tx
  | ctxn :: rest =>
      find_current rest input_txid
        (if json_eqb (_id ctxn) (JStr input_txid) then Some ctxn
         else input_tx)
  end.

(** The body of the loop over [self.inputs]: the transaction the input
    spends and the output it points at. *)
Definition resolve_input (planet : Planet)
    (current_transactions : list Transaction) (input_ : Input)
  : result (Transaction * Output) :=
  match fulfills input_ with
  | None => Raise AttributeError
  | Some link =>
      let input_txid := txid link in
      let input_tx := get_transaction planet input_txid in
      let input_tx :=
        match input_tx with
        | None => find_current current_transactions input_txid None
        | Some _ => input_tx
        end in
      match input_tx with
      | None => Raise InputDoesNotExist
      | Some input_tx =>
          match get_spent planet input_txid (output link)
                  current_transactions with
          | Some _ => Raise DoubleSpend
          | None =>
              output ← py_index (outputs input_tx) (output link);
              Ok (input_tx, output)
          end
      end
  end.

(** [links = [i.fulfills.to_uri() for i in self.inputs]] *)
Definition input_links (ins : list Input) : result (list string) :=
  mapM (fun i => match fulfills i with
                 | Some link => Ok (to_uri link)
                 | None => Raise AttributeError
                 end) ins.

(** [sum([x.amount for x in l])] over Python integers, which are unbounded. *)
Definition sum_amounts (l : list Output) : Z :=
  foldr Z.add 0 (map amount l).

(** [Transaction.validate_transfer_inputs], from the comment "validate
    asset id" to the end: the asset id, the amounts, the signatures. *)
Definition validate_asset_amounts_signatures (self : Transaction)
    (input_txs : list Transaction) (input_conditions : list Output)
  : result bool :=
  (* validate asset id *)
  asset_id ← get_asset_id input_txs;
  self_asset_id ← getitem (asset self) "id";
  if negb (json_eqb asset_id self_asset_id) then Raise AssetIdMismatch
  else
    let input_amount := sum_amounts input_conditions in
    let output_amount := sum_amounts (outputs self) in
    if negb (output_amount =? input_amount) then Raise AmountError
    else
      valid ← inputs_valid self (Some input_conditions);
      if (valid : bool) then Ok true else Raise InvalidSignature.

(** [Transaction.validate_transfer_inputs] *)
Definition validate_transfer_inputs (self : Transaction) (planet : Planet)
    (current_transactions : list Transaction) : result bool :=
  resolved ← mapM (resolve_input planet current_transactions) (inputs self);
  let input_txs := map fst resolved in
  let input_conditions := map snd resolved in
  (* Validate that all inputs are distinct *)
  links ← input_links (inputs self);
  if negb (length links =? length (remove_dups links))%nat
  then Raise DoubleSpend
  else validate_asset_amounts_signatures self input_txs input_conditions.

End Transaction.

(** The output an input points at, when it exists: the store or the
    pending transactions have the transaction the link names, and the
    index of the link is one of the outputs of that transaction. *)
Definition pointed_output (planet : Planet)
    (current_transactions : list Transaction) (input_ : Input)
  : option Output :=
  link ← fulfills input_;
  input_tx ← match get_transaction planet (txid link) with
             | Some tx => Some tx
             | None => find_current current_transactions (txid link) None
             end;
  match py_index (outputs input_tx) (output link) with
  | Ok out => Some out
  | Raise _ => None
  end.

(** An input resolves when it points at an output that exists. *)
Definition resolves (planet : Planet) (current_transactions : list Transaction)
    (input_ : Input) : Prop :=
  is_Some (pointed_output planet current_transactions input_).

#[global] Instance resolves_dec planet current_transactions input_ :
  Decision (resolves planet current_transactions input_).
Proof. unfold resolves. apply _. Defined.

(** ** Transaction dicts, up to the order of their keys

    [a == b] on JSON-shaped objects: lists are compared element by
    element, dicts key by key, whatever the order of the keys. *)
#[warnings="-register-all"]
Inductive py_eq : json -> json -> Prop :=
| py_eq_null : py_eq JNull JNull
| py_eq_bool (b : bool) : py_eq (JBool b) (JBool b)
| py_eq_int (n : Z) : py_eq (JInt n) (JInt n)
| py_eq_str (s : string) : py_eq (JStr s) (JStr s)
| py_eq_list (l1 l2 : list json) :
    Forall2 py_eq l1 l2 -> py_eq (JList l1) (JList l2)
| py_eq_dict (d1 d2 : list (string * json)) :
    (forall k, option_Forall2 py_eq (dict_get d1 k) (dict_get d2 k)) ->
    py_eq (JDict d1) (JDict d2).

(** The keys of a transaction dict. *)
Definition tx_keys : list string :=
  ["inputs"; "outputs"; "operation"; "metadata"; "asset"; "version"; "id"].

Section WellFormed.
Context `{Imports}.

(** A well-formed transaction dict (sections 3 and 6 of the
    specification): it has the seven keys of a transaction and no other;
    [inputs] and [outputs] are lists, each element of which is the dict
    form of the [Input] or [Output] that [from_dict] reads from it; the
    operation is a string that the class registered for it allows; the
    asset has the shape the operation asks for; the metadata is null or a
    dict; the version is not null. *)
Definition well_formed (type_registry : gmap string TxClass)
    (tx : list (string * json)) : Prop :=
  exists (ins outs : list json) (op : string) (asset metadata version id : json)
         (cls : TxClass) (inputs : list Input) (outputs : list Output),
    Forall (fun kv => fst kv ∈ tx_keys) tx /\
    dict_get tx "inputs" = Some (JList ins) /\
    dict_get tx "outputs" = Some (JList outs) /\
    dict_get tx "operation" = Some (JStr op) /\
    dict_get tx "asset" = Some asset /\
    dict_get tx "metadata" = Some metadata /\
    dict_get tx "version" = Some version /\
    dict_get tx "id" = Some id /\
    resolve_class type_registry (JStr op) = Ok (Some cls) /\
    op ∈ cls_ALLOWED_OPERATIONS cls /\
    (op = CREATE -> asset = JNull \/ dict_with "data" asset = true) /\
    (op = TRANSFER -> dict_with "id" asset = true) /\
    (metadata = JNull \/ is_dict metadata = true) /\
    is_none version = false /\
    Forall2 (fun i input_ =>
               Input_from_dict i = Ok input_ /\ py_eq (Input_to_dict input_) i)
      ins inputs /\
    Forall2 (fun o output =>
               Output_from_dict o = Ok output /\ py_eq (Output_to_dict output) o)
      outs outputs.

End WellFormed.

(** ** [planetmint/backend/tarantool/query.py] *)

Module Query.

(** The spaces the two queries read.  A row is the tuple that was inserted:
    [(app_hash, height, block_unique_id)] in [blocks], [(txid,
    block_unique_id)] in [blocks_tx], [(unique_id, height, validators)] in
    [validators].  A list holds the rows in the order [select()] returns
    them. *)
Record Connection : Type := {
  blocks : list (string * Z * string);
  blocks_tx : list (string * string);
  validators : list (string * Z * json);
}.

(** The names [query.py] binds at module level: the names of its [import]
    lines, [register_query], and the functions it defines.  The module has
    no import of [operator] and none of [secrets]: [itemgetter] and
    [token_hex] are not among its names, and they are no builtins. *)
Definition module_names : list string :=
  [ "DESCENDING"; "backend"; "DuplicateKeyError"; "module_dispatch_registrar";
    "LocalMongoDBConnection"; "Transaction"; "register_query";
    "_group_transaction_by_ids"; "store_transactions"; "get_transaction";
    "get_transactions"; "store_metadatas"; "get_metadata"; "store_asset";
    "store_assets"; "get_asset"; "get_assets"; "get_spent"; "latest_block";
    "store_block"; "get_txids_filtered"; "text_search"; "_remove_text_score";
    "get_owned_ids"; "get_spending_transactions"; "get_block";
    "get_block_with_transaction"; "delete_transactions";
    "store_unspent_outputs"; "delete_unspent_outputs"; "get_unspent_outputs";
    "store_pre_commit_state"; "get_pre_commit_state"; "store_validator_set";
    "delete_validator_set"; "store_election"; "store_elections";
    "delete_elections"; "get_validator_set"; "get_election";
    "get_asset_tokens_for_public_key"; "store_abci_chain";
    "delete_abci_chain"; "get_latest_abci_chain" ].

(** A function body reads a name that is neither a local variable nor a
    builtin: the object the module binds to the name, [NameError] when the
    module binds none.  [value] is the object of a bound name. *)
Definition global_name {T : Type} (name : string) (value : T) : result T :=
  if bool_decide (name ∈ module_names) then Ok value else Raise NameError.

(** [sorted(rows, key=key)]: ascending and stable. *)
Fixpoint insert_sorted {A : Type} (key : A -> Z) (x : A) (l : list A)
  : list A :=
  match l with
  | [] => [x]
  | y :: l' =>
      if key x <=? key y then x :: y :: l' else y :: insert_sorted key x l'
  end.

Definition sorted {A : Type} (key : A -> Z) (l : list A) : list A :=
  foldr (insert_sorted key) [] l.

(** What [itemgetter(1)] of the module [operator] is on the rows of
    [blocks] and of [validators]; [query.py] does not import it. *)
Definition itemgetter_1 {A B : Type} (row : A * Z * B) : Z := snd (fst row).

(** [latest_block].  The arguments of [sorted] are evaluated before the
    call: [_all_blocks], then [itemgetter(1)]. *)
Definition latest_block (connection : Connection) : result json :=
  let _all_blocks := blocks connection in
  key ← global_name "itemgetter" itemgetter_1;
  _block ← py_index (sorted key _all_blocks) 0;
  let '(_block_0, _block_1, _block_2) := _block in
  let _txids :=
    filter (fun tx => snd tx = _block_2) (blocks_tx connection) in
  Ok (JDict [ ("app_hash", JInt _block_1);
              ("height", JInt _block_1);
              ("transactions", JList (map (fun tx => JStr (fst tx)) _txids)) ]).

(** [get_validator_set]: the row found, or [None].  [validator[1]] in the
    comprehension is plain indexing; the key of [sorted] is
    [itemgetter(1)]. *)
Definition get_validator_set (connection : Connection) (height : option Z)
  : result (option (string * Z * json)) :=
  let _validators := validators connection in
  match height with
  | Some height =>
      let _validators :=
        filter (fun validator => snd (fst validator) ≤ height)
          _validators in
      key ← global_name "itemgetter" itemgetter_1;
      Ok (head (sorted key _validators))
  | None =>
      key ← global_name "itemgetter" itemgetter_1;
      Ok (head (sorted key _validators))
  end.

End Query.

(** *** Sample stores *)

Module QuerySamples.
Import Query.

(** Two blocks: height 1 with two transactions, height 2 with one. *)
Definition two_blocks : Connection :=
  {| blocks := [ ("hash-one", 1, "uid-1"); ("hash-two", 2, "uid-2") ];
     blocks_tx := [ ("tx-a", "uid-1"); ("tx-b", "uid-1"); ("tx-c", "uid-2") ];
     validators := [] |}.

(** Validator sets stored at heights 1, 3 and 7. *)
Definition three_validator_sets : Connection :=
  {| blocks := [];
     blocks_tx := [];
     validators := [ ("v-1", 1, JList [JStr "alice"]);
                     ("v-3", 3, JList [JStr "bob"]);
                     ("v-7", 7, JList [JStr "carol"]) ] |}.

End QuerySamples.

(** ** A stand-in for the imports

    To run the model on concrete transactions, the libraries are replaced
    by a stand-in with the interface of [Imports].  Keys are their own
    base58 form, the public key of the private key [k] is ["pub-" ++ k],
    a signature names its key and its message, and a URI lists the nodes
    of the tree in prefix order.  Nothing but computations on concrete
    transactions depends on it. *)

Module StandIn.

Definition public_of (private_key : string) : string := "pub-" ++ private_key.

Definition signature_of (message private_key : string) : string :=
  "sig-" ++ private_key ++ "-"
  ++ SHA3.hex_of_bytes (SHA3.bytes_of_string message).

Definition ed25519_sign (message private_key : string) : string * string :=
  (public_of private_key, signature_of message private_key).

(** The tokens of a fulfillment, in prefix order. *)
Fixpoint tokens (f : Fulfillment) : result (list string) :=
  match f with
  | Ed25519Sha256 (Some pk) (Some sig) => Ok ["E"; pk; sig]
  | Ed25519Sha256 _ _ => Raise TypeError
  | ThresholdSha256 t subs =>
      subs' ← (fix go (l : list Fulfillment) : result (list string) :=
                 match l with
                 | [] => Ok []
                 | c :: l' => a ← tokens c; b ← go l'; Ok (app a b)
                 end) subs;
      Ok ("T" :: Codec.str_of_int t
              :: Codec.str_of_int (Z.of_nat (length subs)) :: subs')
  | OtherFulfillment _ _ => Raise ValueError
  end.

Definition serialize_uri (f : Fulfillment) : result string :=
  toks ← tokens f; Ok ("cf:" ++ Codec.join ";" toks).

(** The tokens of a condition: the keys, without the signatures. *)
Fixpoint condition_tokens (f : Fulfillment) : list string :=
  match f with
  | Ed25519Sha256 pk _ => ["E"; default "?" pk]
  | ThresholdSha256 t subs =>
      "T" :: Codec.str_of_int t :: Codec.str_of_int (Z.of_nat (length subs))
          :: flat_map condition_tokens subs
  | OtherFulfillment type_name body => ["O"; type_name; body]
  end.

Definition condition_uri (f : Fulfillment) : string :=
  "cc:" ++ Codec.join ";" (condition_tokens f).

(** [s.split(sep)] for a one-character separator. *)
Fixpoint split (sep : ascii) (s : string) : list string :=
  match s with
  | EmptyString => [EmptyString]
  | String c s' =>
      if Ascii.eqb c sep then EmptyString :: split sep s'
      else match split sep s' with
           | [] => [String c EmptyString]
           | w :: ws => String c w :: ws
           end
  end.

Definition int_of_str (s : string) : option Z :=
  Z.of_int <$> NilZero.int_of_string s.

Fixpoint parse_tokens (fuel : nat) (toks : list string)
  : option (Fulfillment * list string) :=
  match fuel with
  | O => None
  | S fuel' =>
      match toks with
      | kind :: a :: b :: rest =>
          if String.eqb kind "E" then
            Some (Ed25519Sha256 (Some a) (Some b), rest)
          else if String.eqb kind "T" then
            t ← int_of_str a;
            n ← int_of_str b;
            '(subs, rest') ←
              (fix many (k : nat) (toks : list string)
                 : option (list Fulfillment * list string) :=
                 match k with
                 | O => Some ([], toks)
                 | S k' =>
                     '(c, r) ← parse_tokens fuel' toks;
                     '(cs, r') ← many k' r;
                     Some (c :: cs, r')
                 end) (Z.to_nat n) rest;
            Some (ThresholdSha256 t subs, rest')
          else None
      | _ => None
      end
  end.

Definition from_uri (uri : string) : result Fulfillment :=
  match uri with
  | String "c" (String "f" (String ":" body)) =>
      let toks := split ";" body in
      match parse_tokens (S (length toks)) toks with
      | Some (f, []) => Ok f
      | _ => Raise ParsingError
      end
  | _ => Raise ParsingError
  end.

(** A leaf is valid when its signature is the one its key gives the
    message; a threshold node when enough of its subconditions are. *)
Fixpoint valid (f : Fulfillment) (message : string) : bool :=
  match f with
  | Ed25519Sha256 (Some pk) (Some sig) =>
      match pk with
      | String "p" (String "u" (String "b" (String "-" private_key))) =>
          String.eqb sig (signature_of message private_key)
      | _ => false
      end
  | Ed25519Sha256 _ _ => false
  | ThresholdSha256 t subs =>
      t <=? (fix count (l : list Fulfillment) : Z :=
               match l with
               | [] => 0
               | c :: l' => (if valid c message then 1 else 0) + count l'
               end) subs
  | OtherFulfillment _ _ => false
  end.

Definition validate (f : Fulfillment) (message : string) : result bool :=
  Ok (valid f message).

(** Modelled from the spec: the wire form of a [TransactionLink] and of an
    [Input] (sections 3 and 6): [owners_before], [fulfills] ([null] or
    [transaction_id] and [output_index]) and [fulfillment] (the URI of a
    signed condition, [null] before signing).  The modules [input] and
    [transaction_link] are not part of the sources at hand. *)
Definition Input_to_dict (input_ : Input) : json :=
  JDict [ ("owners_before", JList (map JStr (owners_before input_)));
          ("fulfills",
           match fulfills input_ with
           | None => JNull
           | Some link =>
               JDict [ ("transaction_id", JStr (txid link));
                       ("output_index", JInt (output link)) ]
           end);
          ("fulfillment",
           match fulfillment input_ with
           | None => JNull
           | Some f =>
               match serialize_uri f with
               | Ok uri => JStr uri
               | Raise _ => JNull
               end
           end) ].

Definition str_of_json (v : json) : result string :=
  match v with
  | JStr s => Ok s
  | _ => Raise TypeError
  end.

Definition strs_of_json (v : json) : result (list string) :=
  match v with
  | JList l => mapM str_of_json l
  | _ => Raise TypeError
  end.

Definition Input_from_dict (data : json) : result Input :=
  ff ← getitem data "fulfillment";
  fulfillment ←
    match ff with
    | JNull => Ok None
    | JStr uri => f ← from_uri uri; Ok (Some f)
    | _ => Raise TypeError
    end;
  fl ← getitem data "fulfills";
  fulfills ←
    match fl with
    | JNull => Ok None
    | _ =>
        t ← getitem fl "transaction_id";
        t ← str_of_json t;
        o ← getitem fl "output_index";
        match o with
        | JInt n => Ok (Some {| txid := t; output := n |})
        | _ => Raise TypeError
        end
    end;
  ob ← getitem data "owners_before";
  owners ← strs_of_json ob;
  Ok {| fulfillment := fulfillment;
        owners_before := owners;
        fulfills := fulfills |}.

(** Modelled from the spec: the [details] of a condition (section 3):
    [type] and [public_key] for an Ed25519 leaf, [type], [threshold] and
    [subconditions] for a threshold node. *)
Fixpoint details (f : Fulfillment) : json :=
  match f with
  | Ed25519Sha256 pk _ =>
      JDict [ ("type", JStr "ed25519-sha-256");
              ("public_key", match pk with Some k => JStr k | None => JNull end) ]
  | ThresholdSha256 t subs =>
      JDict [ ("type", JStr "threshold-sha-256");
              ("threshold", JInt t);
              ("subconditions", JList (map details subs)) ]
  | OtherFulfillment type_name body =>
      JDict [ ("type", JStr type_name); ("body", JStr body) ]
  end.

Fixpoint from_details (fuel : nat) (v : json) : result Fulfillment :=
  match fuel with
  | O => Raise ValueError
  | S fuel' =>
      ty ← getitem v "type";
      ty ← str_of_json ty;
      if String.eqb ty "ed25519-sha-256" then
        pk ← getitem v "public_key";
        pk ← str_of_json pk;
        Ok (Ed25519Sha256 (Some pk) None)
      else if String.eqb ty "threshold-sha-256" then
        t ← getitem v "threshold";
        subs ← getitem v "subconditions";
        match t, subs with
        | JInt t, JList l =>
            subs ← mapM (from_details fuel') l;
            Ok (ThresholdSha256 t subs)
        | _, _ => Raise TypeError
        end
      else Raise ValueError
  end.

Fixpoint json_depth (v : json) : nat :=
  match v with
  | JList l => S (foldr (fun x n => Nat.max (json_depth x) n) O l)
  | JDict d => S (foldr (fun kv n => Nat.max (json_depth (snd kv)) n) O d)
  | _ => 1%nat
  end.

(** Modelled from the spec: the wire form of an [Output] (sections 3 and
    6): [amount] as a decimal string, [public_keys], and [condition] with
    its [uri] and [details].  Amounts are positive.  The module [output]
    is not part of the sources at hand. *)
Definition Output_to_dict (o : Output) : json :=
  JDict [ ("public_keys", JList (map JStr (public_keys o)));
          ("condition",
           JDict [ ("details", details (output_fulfillment o));
                   ("uri", JStr (condition_uri (output_fulfillment o))) ]);
          ("amount", JStr (Codec.str_of_int (amount o))) ].

Definition Output_from_dict (data : json) : result Output :=
  cond ← getitem data "condition";
  det ← getitem cond "details";
  f ← from_details (json_depth det) det;
  a ← getitem data "amount";
  a ← str_of_json a;
  pks ← getitem data "public_keys";
  pks ← strs_of_json pks;
  match int_of_str a with
  | None => Raise AmountError
  | Some n =>
      if n <? 1 then Raise AmountError
      else Ok {| output_fulfillment := f; public_keys := pks; amount := n |}
  end.

(** Modelled from the spec: a link is written <txid>:<output_index>
    (section 3). *)
Definition to_uri (link : TransactionLink) : string :=
  txid link ++ ":" ++ Codec.str_of_int (output link).

End StandIn.

Definition stand_in : Imports := {|
  b58decode := fun s => s;
  gen_public_key := StandIn.public_of;
  ed25519_sign := StandIn.ed25519_sign;
  serialize_uri := StandIn.serialize_uri;
  from_uri := StandIn.from_uri;
  condition_uri := StandIn.condition_uri;
  validate := StandIn.validate;
  Input_to_dict := StandIn.Input_to_dict;
  Input_from_dict := StandIn.Input_from_dict;
  Output_to_dict := StandIn.Output_to_dict;
  Output_from_dict := StandIn.Output_from_dict;
  to_uri := StandIn.to_uri;
|}.

(** ** Sample transactions, run with the stand-in *)

Module Samples.

Definition alice : string := StandIn.public_of "alice".
Definition bob : string := StandIn.public_of "bob".
Definition carol : string := StandIn.public_of "carol".

Definition unsigned_leaf (public_key : string) : Fulfillment :=
  Ed25519Sha256 (Some public_key) None.

(** A [CREATE] transaction of 100 tokens for alice, before signing. *)
Definition create_tx : Transaction :=
  {| version := JStr VERSION;
     operation := CREATE;
     asset := JDict [("data", JDict [("hello", JStr "world")])];
     inputs := [ {| fulfillment := Some (unsigned_leaf alice);
                    owners_before := [alice];
                    fulfills := None |} ];
     outputs := [ {| output_fulfillment := unsigned_leaf alice;
                     public_keys := [alice];
                     amount := 100 |} ];
     metadata := JNull;
     _id := JNull;
     tx_dict := None |}.

(** The same transaction after [create_tx.sign(["alice"])]. *)
Definition signed_create_tx : Transaction :=
  fst (@sign stand_in create_tx (Some ["alice"])).

(** A [CREATE] transaction with two inputs: the first is alice's, the
    second needs bob and carol (a threshold of two). *)
Definition two_inputs_tx : Transaction :=
  {| version := JStr VERSION;
     operation := CREATE;
     asset := JNull;
     inputs := [ {| fulfillment := Some (unsigned_leaf alice);
                    owners_before := [alice];
                    fulfills := None |};
                 {| fulfillment :=
                      Some (ThresholdSha256 2
                              [unsigned_leaf bob; unsigned_leaf carol]);
                    owners_before := [bob; carol];
                    fulfills := None |} ];
     outputs := [ {| output_fulfillment := unsigned_leaf alice;
                     public_keys := [alice];
                     amount := 1 |} ];
     metadata := JNull;
     _id := JNull;
     tx_dict := None |}.

(** [signed_create_tx.to_dict()] *)
Definition signed_create_dict : list (string * json) :=
  [ ("inputs",
     JList
       [ JDict
           [ ("owners_before", JList [JStr "pub-alice"]);
             ("fulfills", JNull);
             ("fulfillment",
              JStr ("cf:E;pub-alice;sig-alice-"
                    ++ "65a3275b2eb6250047eaf4c89e0cfa7e"
                    ++ "fbb81f937b55de9050c572f13db83766")) ] ]);
    ("outputs",
     JList
       [ JDict
           [ ("public_keys", JList [JStr "pub-alice"]);
             ("condition",
              JDict
                [ ("details",
                   JDict [ ("type", JStr "ed25519-sha-256");
                           ("public_key", JStr "pub-alice") ]);
                  ("uri", JStr "cc:E;pub-alice") ]);
             ("amount", JStr "100") ] ]);
    ("operation", JStr "CREATE");
    ("metadata", JNull);
    ("asset", JDict [("data", JDict [("hello", JStr "world")])]);
    ("version", JStr "2.0");
    ("id",
     JStr ("43e780ed9cd5287fb2ae68bbb831354b"
           ++ "066f9204a9bef338e9b3537b6913860a")) ].

(** The same dict with the identifier of section 3 of the specification
    in the place of [id]. *)
Definition spec_id_create_dict : list (string * json) :=
  dict_set signed_create_dict "id"
    (JStr ("65a3275b2eb6250047eaf4c89e0cfa7e"
           ++ "fbb81f937b55de9050c572f13db83766")).

End Samples.

(** ** The identifier as section 3 of the specification words it

    "hex SHA3-256 of the canonical serialization with [id] set to null and
    all [fulfillment] fields set to null".  This is the definition the
    code is compared with; no function of the model uses it. *)

Definition strip_fulfillment (input_ : json) : json :=
  match input_ with
  | JDict d => JDict (dict_set d "fulfillment" JNull)
  | v => v
  end.

Definition strip_id_and_fulfillments (tx : list (string * json))
  : list (string * json) :=
  let tx := dict_set tx "id" JNull in
  match dict_get tx "inputs" with
  | Some (JList ins) => dict_set tx "inputs" (JList (map strip_fulfillment ins))
  | _ => tx
  end.

Definition spec_id (tx : list (string * json)) : string :=
  Codec.hash_data (Codec.serialize (JDict (strip_id_and_fulfillments tx))).

(** The identifier [validate_id] computes: only [id] is set to null. *)
Definition code_id (tx : list (string * json)) : string :=
  Codec.hash_data (Codec.serialize (JDict (dict_set tx "id" JNull))).

Module MoreSamples.
Import Samples.

(** [two_inputs_tx] after the failed call [two_inputs_tx.sign(["alice"])]:
    bob's and carol's keys are missing. *)
Definition half_signed_tx : Transaction :=
  {| version := JStr VERSION;
     operation := CREATE;
     asset := JNull;
     inputs := [ {| fulfillment :=
                      Some (Ed25519Sha256 (Some "pub-alice")
                              (Some ("sig-alice-"
                                     ++ "60a180c84a793f00d91af51b8d150f90"
                                     ++ "faf9adc051a813e59cbef62cb34721c2")));
                    owners_before := [alice];
                    fulfills := None |};
                 {| fulfillment :=
                      Some (ThresholdSha256 2
                              [unsigned_leaf bob; unsigned_leaf carol]);
                    owners_before := [bob; carol];
                    fulfills := None |} ];
     outputs := [ {| output_fulfillment := unsigned_leaf alice;
                     public_keys := [alice];
                     amount := 1 |} ];
     metadata := JNull;
     _id := JNull;
     tx_dict := None |}.

(** [signed_create_tx.sign(["alice"])], and the result signed once more. *)
Definition resigned_tx : Transaction :=
  fst (@sign stand_in signed_create_tx (Some ["alice"])).

Definition resigned_twice_tx : Transaction :=
  fst (@sign stand_in resigned_tx (Some ["alice"])).

(** The registrations of [planetmint/__init__.py] for [CREATE] and
    [TRANSFER], with the class [Transaction] itself. *)
Definition base_registry : gmap string TxClass :=
  register_type (register_type ∅ CREATE Transaction_class)
    TRANSFER Transaction_class.

(** [signed_create_dict] with the operation [VOTE]. *)
Definition vote_dict : json :=
  JDict (dict_set signed_create_dict "operation" (JStr "VOTE")).

End MoreSamples.

(** *** A store and transfers *)

Module TransferSamples.
Import Samples.

(** A [CREATE] transaction with two outputs for alice, 60 and 40. *)
Definition prior_unsigned_tx : Transaction :=
  {| version := JStr VERSION;
     operation := CREATE;
     asset := JDict [("data", JNull)];
     inputs := [ {| fulfillment := Some (unsigned_leaf alice);
                    owners_before := [alice];
                    fulfills := None |} ];
     outputs := [ {| output_fulfillment := unsigned_leaf alice;
                     public_keys := [alice];
                     amount := 60 |};
                  {| output_fulfillment := unsigned_leaf alice;
                     public_keys := [alice];
                     amount := 40 |} ];
     metadata := JNull;
     _id := JNull;
     tx_dict := None |}.

Definition prior_tx : Transaction :=
  fst (@sign stand_in prior_unsigned_tx (Some ["alice"])).

(** A store that holds the given transactions, none of them spent. *)
Definition planet_of (stored : list Transaction) : Planet :=
  {| get_transaction := fun txid =>
       find (fun tx => json_eqb (_id tx) (JStr txid)) stored;
     get_spent := fun _ _ _ => None |}.

Definition planet : Planet := planet_of [prior_tx].

Definition id_of (tx : Transaction) : string :=
  match _id tx with JStr s => s | _ => EmptyString end.

(** The input [prior_tx.to_inputs([idx])] yields. *)
Definition spend (idx : Z) : Input :=
  {| fulfillment := Some (unsigned_leaf alice);
     owners_before := [alice];
     fulfills := Some {| txid := id_of prior_tx; output := idx |} |}.

Definition transfer (asset_id : string) (ins : list Input)
    (amounts : list Z) : Transaction :=
  fst (@sign stand_in
         {| version := JStr VERSION;
            operation := TRANSFER;
            asset := JDict [("id", JStr asset_id)];
            inputs := ins;
            outputs := map (fun a => {| output_fulfillment := unsigned_leaf bob;
                                        public_keys := [bob];
                                        amount := a |}) amounts;
            metadata := JNull;
            _id := JNull;
            tx_dict := None |}
         (Some ["alice"])).

(** Both outputs of [prior_tx] spent into one output of 100. *)
Definition transfer_both : Transaction :=
  transfer (id_of prior_tx) [spend 0; spend 1] [100].

(** Both outputs spent into 60 and 50. *)
Definition transfer_too_much : Transaction :=
  transfer (id_of prior_tx) [spend 0; spend 1] [60; 50].

(** The first output spent twice into one output of 100. *)
Definition transfer_twice : Transaction :=
  transfer (id_of prior_tx) [spend 0; spend 0] [100].

(** Both outputs spent into 60 and 50, under another asset id. *)
Definition transfer_other_asset : Transaction :=
  transfer "another-asset" [spend 0; spend 1] [60; 50].

End TransferSamples.

(** ** More of class [Transaction] *)

(** [UnspentOutput]: the named tuple of [transaction.py]. *)
Record UnspentOutput : Type := {
  transaction_id : json;
  output_index : Z;
  utxo_amount : Z;
  asset_id : json;
  utxo_condition_uri : string;
}.

(** [enumerate(l)] *)
Definition enumerate {A : Type} (l : list A) : list (Z * A) :=
  imap (fun i x => (Z.of_nat i, x)) l.

Section MoreTransaction.
Context `{Imports}.

(** [Transaction.unspent_outputs], read to its end.  The property sets
    [self._asset_id] for the two operations it knows and leaves the
    attribute unset otherwise; the generator reads it for each output. *)
Definition unspent_outputs (self : Transaction) : result (list UnspentOutput) :=
  _asset_id ←
    (if String.eqb (operation self) CREATE then Ok (Some (_id self))
     else if String.eqb (operation self) TRANSFER then
       a ← getitem (asset self) "id"; Ok (Some a)
     else Ok None);
  mapM (fun '(idx, out) =>
          match _asset_id with
          | Some a =>
              Ok {| transaction_id := _id self;
                    output_index := idx;
                    utxo_amount := amount out;
                    asset_id := a;
                    utxo_condition_uri :=
                      condition_uri (output_fulfillment out) |}
          | None => Raise AttributeError
          end)
    (enumerate (outputs self)).

(** [TransactionLink(self.id, idx)], for a transaction that has an id.
    [fulfills] holds links whose transaction id is a string; for a
    transaction without an id the model has no link, and the properties
    of [to_inputs] are stated for transactions that have one. *)
Definition link_to (self : Transaction) (idx : Z) : option TransactionLink :=
  match _id self with
  | JStr s => Some {| txid := s; output := idx |}
  | _ => None
  end.

(** [Transaction.to_inputs]: [indices] is [None] by default, and an empty
    list stands for all the outputs as well ([indices or range(...)]). *)
Definition to_inputs (self : Transaction) (indices : option (list Z))
  : result (list Input) :=
  let indices :=
    match indices with
    | None | Some [] => map Z.of_nat (seq 0 (length (outputs self)))
    | Some l => l
    end in
  mapM (fun idx =>
          out ← py_index (outputs self) idx;
          Ok {| fulfillment := Some (output_fulfillment out);
                owners_before := public_keys out;
                fulfills := link_to self idx |})
    indices.

(** [Transaction.__str__] *)
Definition __str__ (self : Transaction) : result string :=
  tx ← _remove_signatures (to_dict self); Ok (_to_str tx).

(** [Transaction.to_hash] *)
Definition to_hash (self : Transaction) : result json :=
  getitem (to_dict self) "id".

End MoreTransaction.


(** *** More samples *)

Module UtxoSamples.
Import Samples TransferSamples.

(** [prior_tx.unspent_outputs], read to its end. *)
Definition prior_utxos : list UnspentOutput :=
  [ {| transaction_id := _id prior_tx;
       output_index := 0;
       utxo_amount := 60;
       asset_id := _id prior_tx;
       utxo_condition_uri := "cc:E;pub-alice" |};
    {| transaction_id := _id prior_tx;
       output_index := 1;
       utxo_amount := 40;
       asset_id := _id prior_tx;
       utxo_condition_uri := "cc:E;pub-alice" |} ].

(** The second output of [prior_tx]. *)
Definition second_output : Output :=
  {| output_fulfillment := unsigned_leaf alice;
     public_keys := [alice];
     amount := 40 |}.

(** A [TRANSFER] transaction without inputs. *)
Definition transfer_nothing : Transaction :=
  {| version := JStr VERSION;
     operation := TRANSFER;
     asset := JDict [("id", JStr (id_of prior_tx))];
     inputs := [];
     outputs := [ {| output_fulfillment := unsigned_leaf bob;
                     public_keys := [bob];
                     amount := 100 |} ];
     metadata := JNull;
     _id := JNull;
     tx_dict := None |}.

(** [signed_create_dict] after [_remove_signatures]. *)
Definition unsigned_create_dict : json :=
  JDict
    (dict_set signed_create_dict "inputs"
       (JList
          [ JDict
              [ ("owners_before", JList [JStr "pub-alice"]);
                ("fulfills", JNull);
                ("fulfillment", JNull) ] ])).

(** The message [create_tx.sign] signs: the dict of the transaction
    without signatures and without id, serialized. *)
Definition create_message : string :=
  Codec.serialize (JDict (strip_id_and_fulfillments signed_create_dict)).

(** The second input of [two_inputs_tx]: it needs bob and carol. *)
Definition bob_carol_input : Input :=
  {| fulfillment :=
       Some (ThresholdSha256 2 [unsigned_leaf bob; unsigned_leaf carol]);
     owners_before := [bob; carol];
     fulfills := None |}.

(** An input with a link to output 0 of a transaction that is nowhere. *)
Definition ghost_link : TransactionLink :=
  {| txid := "ghost"; output := 0 |}.

Definition spend_ghost : Input :=
  {| fulfillment := Some (unsigned_leaf alice);
     owners_before := [alice];
     fulfills := Some ghost_link |}.

(** A [TRANSFER] transaction whose two inputs carry [ghost_link]. *)
Definition ghost_twice : Transaction :=
  transfer (id_of prior_tx) [spend_ghost; spend_ghost] [100].

(** A [TRANSFER] transaction whose two inputs carry the link to output 5
    of [prior_tx], which has two outputs. *)
Definition out_of_range_twice : Transaction :=
  transfer (id_of prior_tx) [spend 5; spend 5] [100].

End UtxoSamples.

(** * Properties *)

Local Open Scope list_scope.

(** ** The codec *)

Example sha3_256_empty :
  SHA3.hexdigest EmptyString =
  "a7ffc6f8bf1ed76651c14756a061d662f580ff4de43b49fa82d80a4b80f8434a".
Proof. vm_compute. reflexivity. Qed.

Example sha3_256_abc :
  SHA3.hexdigest "abc" =
  "3a985da74fe225b2045c172d6bd390bd855f086e3e9d525b46bfe24511431532".
Proof. vm_compute. reflexivity. Qed.

Example serialize_sorts_keys :
  Codec.serialize
    (JDict [("b", JList [JInt 1; JNull; JBool true]); ("a", JInt (-7))])
  = ("{" ++ Codec.quote "a" ++ ":-7," ++ Codec.quote "b" ++ ":[1,null,true]}")%string.
Proof. vm_compute. reflexivity. Qed.

Example quote_escapes :
  String.length (Codec.quote "x\y") = 6%nat /\
  Codec.quote "ab" = String Codec.dquote ("ab" ++ String Codec.dquote EmptyString)%string.
Proof. vm_compute. split; reflexivity. Qed.

(** ** The tarantool queries *)

Module QueryFacts.
Import Query.

(** [query.py] binds neither [itemgetter] nor [token_hex]. *)
Lemma global_name_unbound {T : Type} (name : string) (value : T) :
  name ∉ module_names -> global_name name value = Raise NameError.
Proof.
  intros Hn. unfold global_name. rewrite bool_decide_false by exact Hn.
  reflexivity.
Qed.

Lemma itemgetter_unbound : "itemgetter" ∉ module_names.
Proof. apply (bool_decide_unpack _). vm_compute. exact I. Qed.

(** C4.  [latest_block] returns no block: on the store [two_blocks]
    (heights 1 and 2), as on every store, the call raises [NameError],
    since the key of [sorted] is [itemgetter(1)] and the module binds no
    [itemgetter].  The claim asks for the block of maximal height with
    its stored [app_hash] and its transactions. *)
Theorem latest_block_raises_NameError :
  latest_block QuerySamples.two_blocks = Raise NameError /\
  forall connection : Connection, latest_block connection = Raise NameError.
Proof.
  assert (H : forall connection : Connection,
            latest_block connection = Raise NameError).
  { intros connection. unfold latest_block.
    rewrite (global_name_unbound _ _ itemgetter_unbound). reflexivity. }
  split; [apply H | exact H].
Qed.

(** C5.  [get_validator_set] returns no record: on the store
    [three_validator_sets] (heights 1, 3 and 7) with the height 5 and
    without a height, as on every store and for every height, the call
    raises [NameError], since both branches sort with the key
    [itemgetter(1)] and the module binds no [itemgetter].  The claim asks
    for the set stored at height 3 and for the one at height 7. *)
Theorem get_validator_set_raises_NameError :
  get_validator_set QuerySamples.three_validator_sets (Some 5)
    = Raise NameError /\
  get_validator_set QuerySamples.three_validator_sets None
    = Raise NameError /\
  forall (connection : Connection) (height : option Z),
    get_validator_set connection height = Raise NameError.
Proof.
  assert (H : forall (connection : Connection) (height : option Z),
            get_validator_set connection height = Raise NameError).
  { intros connection [height|]; unfold get_validator_set;
      rewrite (global_name_unbound _ _ itemgetter_unbound); reflexivity. }
  split; [apply H|]. split; [apply H | exact H].
Qed.

End QueryFacts.


(** ** JSON-shaped values *)

Lemma rapidjson_reload_id (v : json) : rapidjson_reload v = v.
Proof.
  induction v as [| | | |l IH|d IH] using json_ind'; simpl; try reflexivity.
  - f_equal. induction IH as [|x l Hx _ IHl]; simpl; [reflexivity|].
    rewrite Hx, IHl. reflexivity.
  - f_equal. induction IH as [|[k x] d Hx _ IHd]; simpl; [reflexivity|].
    simpl in Hx. rewrite Hx, IHd. reflexivity.
Qed.

Lemma json_eqb_JStr (v : json) (s : string) :
  json_eqb v (JStr s) = true <-> v = JStr s.
Proof.
  destruct v; simpl; try (split; [discriminate | intros [=]]).
  rewrite String.eqb_eq. split; [intros ->; reflexivity | intros [= ->]; reflexivity].
Qed.

(** ** [validate_id] and the identifier *)

Lemma validate_id_dict (tx_body : list (string * json)) :
  validate_id (JDict tx_body) =
  match dict_get tx_body "id" with
  | None => Raise InvalidHash
  | Some proposed_tx_id =>
      if json_eqb proposed_tx_id (JStr (code_id tx_body))
      then Ok tt else Raise InvalidHash
  end.
Proof.
  unfold validate_id. cbv zeta. rewrite rapidjson_reload_id.
  unfold getitem. destruct (dict_get tx_body "id") as [p|]; [|reflexivity].
  simpl. unfold code_id, _to_hash, _to_str.
  destruct (json_eqb p _); reflexivity.
Qed.

(** C1, as the code has it: [validate_id] accepts a transaction dict
    exactly when its [id] is the lowercase-hex SHA3-256 of the canonical
    serialization of the dict with [id] set to null, the [fulfillment] of
    every input left as it is; it raises [InvalidHash] when the stored id
    differs or is absent. *)
Theorem validate_id_recomputes_code_id (tx_body : list (string * json)) :
  (validate_id (JDict tx_body) = Ok tt <->
   dict_get tx_body "id" = Some (JStr (code_id tx_body))) /\
  (dict_get tx_body "id" <> Some (JStr (code_id tx_body)) ->
   validate_id (JDict tx_body) = Raise InvalidHash).
Proof.
  rewrite validate_id_dict.
  destruct (dict_get tx_body "id") as [p|].
  - destruct (json_eqb p (JStr (code_id tx_body))) eqn:E.
    + apply json_eqb_JStr in E. subst p. split; [tauto | congruence].
    + split; [|reflexivity].
      split; [discriminate|]. intros [= ->].
      assert (json_eqb (JStr (code_id tx_body)) (JStr (code_id tx_body)) = true)
        by (apply json_eqb_JStr; reflexivity).
      congruence.
  - split; [split; discriminate | reflexivity].
Qed.

Example signed_create_dict_is_to_dict :
  @to_dict stand_in Samples.signed_create_tx = JDict Samples.signed_create_dict.
Proof. vm_compute. reflexivity. Qed.

(** C1, as the specification words it, fails on [signed_create_dict], the
    dict of a signed [CREATE] transaction: [validate_id] accepts it, and
    its [id] is [code_id], not [spec_id]; with [spec_id] in the place of
    [id], [validate_id] raises [InvalidHash]. *)
Lemma validate_id_keeps_fulfillments :
  validate_id (JDict Samples.signed_create_dict) = Ok tt /\
  dict_get Samples.signed_create_dict "id" =
    Some (JStr "43e780ed9cd5287fb2ae68bbb831354b066f9204a9bef338e9b3537b6913860a") /\
  spec_id Samples.signed_create_dict =
    "65a3275b2eb6250047eaf4c89e0cfa7efbb81f937b55de9050c572f13db83766" /\
  dict_get Samples.spec_id_create_dict "id" =
    Some (JStr (spec_id Samples.spec_id_create_dict)) /\
  validate_id (JDict Samples.spec_id_create_dict) = Raise InvalidHash.
Proof. vm_compute. repeat split; reflexivity. Qed.

(** ** Signing *)

Section SigningFacts.
Context `{Imports}.

Lemma with_inputs_same (self : Transaction) :
  with_inputs self (inputs self) = self.
Proof. destruct self; reflexivity. Qed.

Lemma with_inputs_twice (self : Transaction) (l1 l2 : list Input) :
  with_inputs (with_inputs self l1) l2 = with_inputs self l2.
Proof. reflexivity. Qed.

(** The loop of [sign]: when it stops, the inputs it has reached and signed
    are replaced by their signed copies, the others are the ones of
    before; it stops early exactly at the first input that cannot be
    signed. *)
Lemma sign_inputs_spec (message : string) (key_pairs : gmap string string)
    (todo done : list Input) (self self' : Transaction) (r : result unit) :
  inputs self = done ++ todo ->
  sign_inputs todo (length done) self message key_pairs = (self', r) ->
  exists (reached rest : list Input) (signed : list Input),
    todo = reached ++ rest /\
    Forall2 (fun input_ s => _sign_input input_ message key_pairs = Ok s)
      reached signed /\
    self' = with_inputs self (done ++ signed ++ rest) /\
    match r with
    | Ok _ => rest = []
    | Raise e =>
        exists input_ rest',
          rest = input_ :: rest' /\
          _sign_input input_ message key_pairs = Raise e
    end.
Proof.
  revert done self. induction todo as [|input_ todo IH]; intros done self Hin Hs.
  - simpl in Hs. inversion Hs; subst. exists [], [], []. simpl.
    repeat split; [constructor|].
    rewrite app_nil_r in Hin. rewrite app_nil_r, <- Hin.
    symmetry. apply with_inputs_same.
  - simpl in Hs.
    destruct (_sign_input input_ message key_pairs) as [s|e] eqn:Hsig.
    + specialize (IH (done ++ [s])
                    (with_inputs self (<[length done := s]> (inputs self)))).
      rewrite length_app in IH. simpl in IH.
      replace (length done + 1)%nat with (S (length done)) in IH by lia.
      assert (Hins : <[length done := s]> (inputs self) = (done ++ [s]) ++ todo).
      { rewrite Hin. rewrite insert_app_r_alt by lia.
        rewrite Nat.sub_diag. simpl. rewrite <- app_assoc. reflexivity. }
      destruct (IH Hins Hs) as (reached & rest & signed & Ht & Hf & Hself & Hr).
      exists (input_ :: reached), rest, (s :: signed).
      split; [simpl; rewrite Ht; reflexivity|].
      split; [constructor; assumption|].
      split; [|exact Hr].
      rewrite Hself, with_inputs_twice. rewrite <- app_assoc. reflexivity.
    + inversion Hs; subst. exists [], (input_ :: todo), []. simpl.
      split; [reflexivity|]. split; [constructor|].
      split; [rewrite <- Hin; symmetry; apply with_inputs_same|].
      exists input_, todo. split; [reflexivity | exact Hsig].
Qed.

(** C2, as the code has it: when [sign] fails, every attribute of the
    transaction but [inputs] is the one of before (the id too).  A call
    that fails before the loop (the keys are no list, or the unsigned dict
    cannot be built) leaves the transaction as it was.  A call that fails
    in the loop fails at the first input, at position [k], that
    [_sign_input] cannot sign for the serialized unsigned dict and the
    key pairs of the call, with the exception of that input; the [k]
    inputs before it have been replaced in [self.inputs] by the copies
    [_sign_input] returned, the inputs from position [k] on are the ones
    of before; for [k = 0] the transaction is as it was. *)
Theorem sign_failure_state (self self' : Transaction)
    (private_keys : option (list string)) (e : exn) :
  sign self private_keys = (self', Raise e) ->
  version self' = version self /\
  operation self' = operation self /\
  asset self' = asset self /\
  outputs self' = outputs self /\
  metadata self' = metadata self /\
  _id self' = _id self /\
  tx_dict self' = tx_dict self /\
  match private_keys with
  | None => self' = self
  | Some keys =>
      match _remove_signatures (to_dict self) with
      | Raise _ => self' = self
      | Ok unsigned =>
          let message := _to_str unsigned in
          let key_pairs := gen_key_pairs keys in
          exists (k : nat) (input_ : Input) (signed : list Input),
            inputs self !! k = Some input_ /\
            _sign_input input_ message key_pairs = Raise e /\
            Forall2
              (fun input_ s => _sign_input input_ message key_pairs = Ok s)
              (take k (inputs self)) signed /\
            inputs self' = signed ++ drop k (inputs self) /\
            (k = 0%nat -> self' = self)
      end
  end.
Proof.
  unfold sign. destruct private_keys as [private_keys|].
  - destruct (_remove_signatures (to_dict self)) as [tx_dict|e'] eqn:Hrm.
    + destruct (sign_inputs (inputs self) 0 self (_to_str tx_dict)
                  (gen_key_pairs private_keys)) as [self1 r] eqn:Hs.
      destruct r as [[]|e1]; intros [= <- <-].
      destruct (sign_inputs_spec _ _ (inputs self) [] self self1 (Raise e1)
                  eq_refl Hs)
        as (reached & rest & signed & Ht & Hf & Hself
            & input_ & rest' & -> & Hfail).
      subst self1. simpl. repeat split; try reflexivity.
      exists (length reached), input_, signed.
      pose proof (Forall2_length _ _ _ Hf) as Hlen.
      rewrite Ht.
      rewrite drop_app_length, take_app_length.
      split; [apply list_lookup_middle; reflexivity|].
      split; [exact Hfail|]. split; [exact Hf|]. split; [reflexivity|].
      intros Hk. destruct reached; [|discriminate].
      inversion Hf; subst. simpl in Ht. simpl. rewrite <- Ht.
      apply with_inputs_same.
    + intros [= <- <-]. repeat split; reflexivity.
  - intros [= <- <-]. repeat split; reflexivity.
Qed.

End SigningFacts.

(** ** Signing, on the sample transactions *)

(** C2, as the claim words it, fails on [two_inputs_tx] signed with alice's
    key alone: the call raises [KeypairMismatchException] at the second
    input, and leaves the transaction with its first input replaced by
    the signed copy. *)
Lemma sign_failure_replaces_first_input :
  @sign stand_in Samples.two_inputs_tx (Some ["alice"])
    = (MoreSamples.half_signed_tx, Raise KeypairMismatchException) /\
  fulfillment <$> inputs Samples.two_inputs_tx !! 0%nat
    = Some (Some (Ed25519Sha256 (Some "pub-alice") None)) /\
  fulfillment <$> inputs MoreSamples.half_signed_tx !! 0%nat
    = Some (Some (Ed25519Sha256 (Some "pub-alice")
                    (Some "sig-alice-60a180c84a793f00d91af51b8d150f90faf9adc051a813e59cbef62cb34721c2"))).
Proof. vm_compute. repeat split; reflexivity. Qed.

(** [sign_failure_state] at [two_inputs_tx] signed with alice's key. *)
Lemma sign_failure_state_witness :
  @sign stand_in Samples.two_inputs_tx (Some ["alice"])
    = (MoreSamples.half_signed_tx, Raise KeypairMismatchException) /\
  _id MoreSamples.half_signed_tx = _id Samples.two_inputs_tx /\
  outputs MoreSamples.half_signed_tx = outputs Samples.two_inputs_tx.
Proof.
  assert (Hs : @sign stand_in Samples.two_inputs_tx (Some ["alice"])
               = (MoreSamples.half_signed_tx, Raise KeypairMismatchException))
    by (vm_compute; reflexivity).
  split; [exact Hs|].
  pose proof (@sign_failure_state stand_in _ _ _ _ Hs) as P.
  split; [apply P | apply P].
Defined.

(** C3, at [signed_create_tx], a transaction that alice's key has signed:
    signing it again changes the signature and the id, and signing the
    result once more changes them again, so [sign] is not idempotent.  The
    transaction signed once passes [validate_id] and [inputs_valid]; signed
    twice it fails both, since [sign] leaves the old id in the message and
    in the hash, where the two validators put null. *)
Theorem sign_again_changes_id_and_signature :
  _id Samples.signed_create_tx
    = JStr "43e780ed9cd5287fb2ae68bbb831354b066f9204a9bef338e9b3537b6913860a" /\
  @sign stand_in Samples.signed_create_tx (Some ["alice"])
    = (MoreSamples.resigned_tx, Ok tt) /\
  _id MoreSamples.resigned_tx
    = JStr "9189b635c84f4c55fb8a41288e61ce201b0eda201148c699edec9e1f2dc64ed1" /\
  @sign stand_in MoreSamples.resigned_tx (Some ["alice"])
    = (MoreSamples.resigned_twice_tx, Ok tt) /\
  _id MoreSamples.resigned_twice_tx
    = JStr "16e4d70520289e8360f2be5bf8f7ca93a5bbbb8eb02da62a0541d2b1393ef353" /\
  fulfillment <$> inputs MoreSamples.resigned_tx !! 0%nat
    = Some (Some (Ed25519Sha256 (Some "pub-alice")
                    (Some "sig-alice-5b19462b7884e6ddf89b781d9bc7baefc74376e589fa7bf327e75a0c1a070a3d"))) /\
  fulfillment <$> inputs MoreSamples.resigned_twice_tx !! 0%nat
    = Some (Some (Ed25519Sha256 (Some "pub-alice")
                    (Some "sig-alice-7c829e8c282c14825a7c568f0969dd0fcacb7eb36dcdf989ca19b4e9e05016d1"))) /\
  validate_id (@to_dict stand_in Samples.signed_create_tx) = Ok tt /\
  @inputs_valid stand_in Samples.signed_create_tx None = Ok true /\
  validate_id (@to_dict stand_in MoreSamples.resigned_tx) = Raise InvalidHash /\
  @inputs_valid stand_in MoreSamples.resigned_tx None = Ok false.
Proof. vm_compute. repeat split; reflexivity. Qed.

(** ** [sign] and [validate_id] agree on fresh transactions *)

Section SignThenValidate.
Context `{Imports}.

(** X22.  The id [sign] gives a transaction that had none is the id
    [validate_id] recomputes: both hash the dict with the signed
    fulfillments in it. *)
Lemma sign_fresh_validate_id (self self' : Transaction)
    (private_keys : list string) :
  _id self = JNull ->
  sign self (Some private_keys) = (self', Ok tt) ->
  validate_id (to_dict self') = Ok tt.
Proof.
  intros Hid. unfold sign.
  destruct (_remove_signatures (to_dict self)) as [tx_dict|e]; [|discriminate].
  destruct (sign_inputs _ _ _ _ _) as [self1 r] eqn:Hs.
  destruct r as [[]|e]; [|discriminate]. intros [= <-].
  destruct (sign_inputs_spec _ _ (inputs self) [] self self1 (Ok tt) eq_refl Hs)
    as (reached & rest & signed & _ & _ & Hself & _).
  assert (Hid1 : _id self1 = JNull) by (subst self1; exact Hid).
  unfold to_dict at 1. rewrite validate_id_dict. simpl.
  unfold code_id, serialized, _to_str, to_dict. simpl. rewrite Hid1.
  rewrite String.eqb_refl. reflexivity.
Qed.

End SignThenValidate.

(** ** [validate_transfer_inputs] *)

Lemma remove_dups_length_le {A : Type} `{EqDecision A} (l : list A) :
  (length (remove_dups l) <= length l)%nat.
Proof.
  induction l as [|x l IH]; simpl; [lia|].
  destruct (decide_rel elem_of x l); simpl; lia.
Qed.

Lemma remove_dups_length_NoDup {A : Type} `{EqDecision A} (l : list A) :
  length l = length (remove_dups l) <-> NoDup l.
Proof.
  induction l as [|x l IH]; simpl.
  - split; [constructor | reflexivity].
  - pose proof (remove_dups_length_le l) as Hle.
    destruct (decide_rel elem_of x l) as [Hin|Hin]; simpl.
    + split; [lia|]. intros Hnd. apply NoDup_cons in Hnd as [Hn _]. tauto.
    + rewrite NoDup_cons. split.
      * intros [= E]. split; [exact Hin | apply IH, E].
      * intros [_ Hnd]. f_equal. apply IH, Hnd.
Qed.

Lemma mapM_Ok_Forall2 {A B : Type} (f : A -> result B) (l : list A)
    (l' : list B) :
  mapM f l = Ok l' <-> Forall2 (fun x y => f x = Ok y) l l'.
Proof.
  revert l'. induction l as [|x l IH]; intros l'; simpl.
  - split; [intros [= <-]; constructor | intros Hf; inversion Hf; reflexivity].
  - destruct (f x) as [y|e] eqn:Hx; simpl.
    + destruct (mapM f l) as [ys|e] eqn:Hl; simpl.
      * split.
        -- intros [= <-]. constructor; [exact Hx | apply IH; reflexivity].
        -- intros Hf. inversion Hf as [|x0 y0 l0 l0' Hy Hrest]; subst.
           apply IH in Hrest. congruence.
      * split; [discriminate|].
        intros Hf. inversion Hf as [|x0 y0 l0 l0' Hy Hrest]; subst.
        apply IH in Hrest. discriminate.
    + split; [discriminate|].
      intros Hf. inversion Hf; subst. congruence.
Qed.

(** When every element gives a value or raises [e], so does the
    comprehension. *)
Lemma mapM_Ok_or {A B : Type} (f : A -> result B) (e : exn) (l : list A) :
  Forall (fun x => (exists y, f x = Ok y) \/ f x = Raise e) l ->
  (exists l', mapM f l = Ok l') \/ mapM f l = Raise e.
Proof.
  induction 1 as [|x l [[y Hy]|Hx] _ IH]; simpl.
  - left. eexists. reflexivity.
  - rewrite Hy. simpl. destruct IH as [[l' ->] | ->]; simpl; eauto.
  - rewrite Hx. right. reflexivity.
Qed.

Section TransferFacts.
Context `{Imports}.

Lemma resolve_input_resolves (planet : Planet) (cur : list Transaction)
    (input_ : Input) :
  resolves planet cur input_ ->
  (exists r, resolve_input planet cur input_ = Ok r) \/
  resolve_input planet cur input_ = Raise DoubleSpend.
Proof.
  intros [out Hout]. unfold pointed_output in Hout. unfold resolve_input.
  destruct (fulfills input_) as [link|]; [|discriminate]. simpl in Hout.
  destruct (match get_transaction planet (txid link) with
            | Some tx => Some tx
            | None => find_current cur (txid link) None
            end) as [tx|] eqn:Htx; [|discriminate].
  simpl in Hout.
  destruct (py_index (outputs tx) (output link)) as [o|] eqn:Ho;
    [|discriminate].
  destruct (get_transaction planet (txid link)) as [tx'|].
  - inversion Htx; subst tx'.
    destruct (get_spent _ _ _ _); [right; reflexivity|].
    rewrite Ho. left. eexists. reflexivity.
  - rewrite Htx.
    destruct (get_spent _ _ _ _); [right; reflexivity|].
    rewrite Ho. left. eexists. reflexivity.
Qed.

Lemma resolve_input_Ok_fulfills (planet : Planet) (cur : list Transaction)
    (input_ : Input) (r : Transaction * Output) :
  resolve_input planet cur input_ = Ok r -> exists link, fulfills input_ = Some link.
Proof.
  unfold resolve_input. destruct (fulfills input_); [eauto | discriminate].
Qed.

(** Once every input has been resolved, the links are there to compare. *)
Lemma input_links_resolved (planet : Planet) (cur : list Transaction)
    (ins : list Input) (resolved : list (Transaction * Output)) :
  mapM (resolve_input planet cur) ins = Ok resolved ->
  exists links,
    input_links ins = Ok links /\
    Forall2 (fun i u => exists link, fulfills i = Some link /\ u = to_uri link)
      ins links.
Proof.
  revert resolved. induction ins as [|i ins IH]; intros resolved Hm; simpl in *.
  - exists []. split; [reflexivity | constructor].
  - destruct (resolve_input planet cur i) as [r|] eqn:Hr; [|discriminate].
    simpl in Hm.
    destruct (mapM (resolve_input planet cur) ins) as [rs|] eqn:Hrs;
      [|discriminate].
    destruct (IH rs eq_refl) as (links & Hl & Hf).
    destruct (resolve_input_Ok_fulfills _ _ _ _ Hr) as [link Hlink].
    exists (to_uri link :: links). unfold input_links in *. simpl.
    rewrite Hlink. simpl. rewrite Hl. simpl.
    split; [reflexivity|]. constructor; [eauto | exact Hf].
Qed.

Lemma validate_transfer_inputs_after_links (self : Transaction)
    (planet : Planet) (cur : list Transaction)
    (resolved : list (Transaction * Output)) (links : list string) :
  mapM (resolve_input planet cur) (inputs self) = Ok resolved ->
  input_links (inputs self) = Ok links ->
  validate_transfer_inputs self planet cur =
  if bool_decide (NoDup links)
  then validate_asset_amounts_signatures self (map fst resolved)
         (map snd resolved)
  else Raise DoubleSpend.
Proof.
  intros Hr Hl. unfold validate_transfer_inputs. rewrite Hr. simpl.
  rewrite Hl. simpl.
  destruct (Nat.eqb_spec (length links) (length (remove_dups links))) as [E|E];
    simpl.
  - apply remove_dups_length_NoDup in E. rewrite bool_decide_true by exact E.
    reflexivity.
  - rewrite bool_decide_false; [reflexivity|].
    intros Hnd. apply E, remove_dups_length_NoDup, Hnd.
Qed.

Lemma get_asset_id_not_AmountError (txs : list Transaction) :
  get_asset_id txs <> Raise AmountError.
Proof.
  unfold get_asset_id.
  assert (Hm : forall l, mapM (fun tx : Transaction =>
                   if String.eqb (operation tx) CREATE then Ok (_id tx)
                   else getitem (asset tx) "id") l <> Raise AmountError).
  { induction l as [|tx l IH]; simpl; [discriminate|].
    destruct (String.eqb (operation tx) CREATE); simpl.
    - destruct (mapM _ l); simpl; [discriminate | exact IH].
    - unfold getitem. destruct (asset tx) as [| | | | |d]; simpl;
        try discriminate.
      destruct (dict_get d "id"); simpl; [|discriminate].
      destruct (mapM _ l); simpl; [discriminate | exact IH]. }
  specialize (Hm txs). destruct (mapM _ txs) as [ids|e]; simpl;
    [|intros [= ->]; apply Hm; reflexivity].
  destruct (json_set ids) as [|a [|b l]]; discriminate.
Qed.

Lemma resolve_inputs_not_AmountError (planet : Planet)
    (cur : list Transaction) (ins : list Input) :
  mapM (resolve_input planet cur) ins <> Raise AmountError.
Proof.
  induction ins as [|i ins IH]; simpl; [discriminate|].
  destruct (resolve_input planet cur i) as [r|e] eqn:Hr; simpl.
  - destruct (mapM _ ins); simpl; [discriminate | exact IH].
  - intros [= ->]. revert Hr. unfold resolve_input.
    destruct (fulfills i) as [link|]; [|discriminate].
    destruct (match get_transaction planet (txid link) with
              | Some _ => _ | None => _ end) as [tx|]; [|discriminate].
    destruct (get_spent _ _ _ _); [discriminate|].
    unfold py_index.
    destruct (_ && _); [|discriminate].
    destruct (nth_error _ _); discriminate.
Qed.

(** C6, as the code has it.  For a transaction whose inputs all resolve
    to unspent outputs, whose links are pairwise distinct and whose inputs
    carry the asset id of the transaction: [validate_transfer_inputs]
    raises [AmountError] when the sum of the amounts of the outputs the
    inputs point at differs from the sum of the amounts of its own
    outputs, and goes on to the check of the signatures when the sums are
    equal.  For every transaction: an [AmountError] means that the inputs
    were resolved and that the sums differ, unless the check of the
    signatures raised it.  The sums are sums of unbounded integers. *)
Theorem amount_error_when_sums_differ (self : Transaction) (planet : Planet)
    (cur : list Transaction) :
  (forall resolved links asset_id self_asset_id,
     mapM (resolve_input planet cur) (inputs self) = Ok resolved ->
     input_links (inputs self) = Ok links ->
     NoDup links ->
     get_asset_id (map fst resolved) = Ok asset_id ->
     getitem (asset self) "id" = Ok self_asset_id ->
     json_eqb asset_id self_asset_id = true ->
     (sum_amounts (map snd resolved) <> sum_amounts (outputs self) ->
      validate_transfer_inputs self planet cur = Raise AmountError) /\
     (sum_amounts (map snd resolved) = sum_amounts (outputs self) ->
      validate_transfer_inputs self planet cur =
        (valid ← inputs_valid self (Some (map snd resolved));
         if (valid : bool) then Ok true else Raise InvalidSignature))) /\
  (validate_transfer_inputs self planet cur = Raise AmountError ->
   exists resolved,
     mapM (resolve_input planet cur) (inputs self) = Ok resolved /\
     (sum_amounts (map snd resolved) <> sum_amounts (outputs self) \/
      inputs_valid self (Some (map snd resolved)) = Raise AmountError)).
Proof.
  split.
  - intros resolved links asset_id self_asset_id Hr Hl Hnd Ha Hs He.
    rewrite (validate_transfer_inputs_after_links _ _ _ _ _ Hr Hl).
    rewrite bool_decide_true by exact Hnd.
    unfold validate_asset_amounts_signatures. rewrite Ha. simpl.
    rewrite Hs. simpl. rewrite He. simpl.
    split; intros Hsum.
    + destruct (Z.eqb_spec (sum_amounts (outputs self))
                  (sum_amounts (map snd resolved))); [congruence|reflexivity].
    + rewrite Hsum, Z.eqb_refl. reflexivity.
  - intros Hv.
    destruct (mapM (resolve_input planet cur) (inputs self)) as [resolved|e]
      eqn:Hr.
    2:{ unfold validate_transfer_inputs in Hv. rewrite Hr in Hv. simpl in Hv.
        injection Hv as ->.
        exfalso. eapply resolve_inputs_not_AmountError, Hr. }
    exists resolved. split; [reflexivity|].
    destruct (input_links_resolved _ _ _ _ Hr) as (links & Hl & _).
    rewrite (validate_transfer_inputs_after_links _ _ _ _ _ Hr Hl) in Hv.
    destruct (bool_decide (NoDup links)); [|discriminate].
    unfold validate_asset_amounts_signatures in Hv.
    destruct (get_asset_id (map fst resolved)) as [aid|e] eqn:Ha; simpl in Hv.
    2:{ injection Hv as ->.
        exfalso. eapply get_asset_id_not_AmountError, Ha. }
    unfold getitem in Hv.
    destruct (asset self) as [| | | | |d]; simpl in Hv; try discriminate.
    destruct (dict_get d "id") as [sid|]; simpl in Hv; [|discriminate].
    destruct (json_eqb aid sid); simpl in Hv; [|discriminate].
    destruct (Z.eqb_spec (sum_amounts (outputs self))
                (sum_amounts (map snd resolved))) as [E|E]; simpl in Hv.
    + right.
      destruct (inputs_valid self (Some (map snd resolved))) as [[]|e];
        simpl in Hv; congruence.
    + left. congruence.
Qed.

(** C7, as the code has it.  The loop over the inputs comes before the
    check of the links, and raises when an input points at no output.
    When the inputs of a transaction all resolve and two of them carry
    the same link, [validate_transfer_inputs] raises [DoubleSpend].  When
    the inputs resolve and their links are pairwise distinct, as are two
    outputs of the same prior transaction, and [to_uri] tells them apart,
    the check of the links lets the transaction through to the checks that
    follow it. *)
Theorem double_spend_on_repeated_link (self : Transaction) (planet : Planet)
    (cur : list Transaction) :
  (forall (i j : nat) (link : TransactionLink),
     i <> j ->
     fulfills <$> inputs self !! i = Some (Some link) ->
     fulfills <$> inputs self !! j = Some (Some link) ->
     Forall (resolves planet cur) (inputs self) ->
     validate_transfer_inputs self planet cur = Raise DoubleSpend) /\
  (forall resolved,
     mapM (resolve_input planet cur) (inputs self) = Ok resolved ->
     NoDup (fulfills <$> inputs self) ->
     (forall l1 l2,
        Some l1 ∈ fulfills <$> inputs self ->
        Some l2 ∈ fulfills <$> inputs self ->
        to_uri l1 = to_uri l2 -> l1 = l2) ->
     validate_transfer_inputs self planet cur =
     validate_asset_amounts_signatures self (map fst resolved)
       (map snd resolved)).
Proof.
  split.
  - intros i j link Hij Hi Hj Hres.
    destruct (mapM_Ok_or (resolve_input planet cur) DoubleSpend (inputs self))
      as [[resolved Hr]|Hr].
    { eapply Forall_impl; [exact Hres|].
      intros x Hx. apply resolve_input_resolves, Hx. }
    2:{ unfold validate_transfer_inputs. rewrite Hr. reflexivity. }
    destruct (input_links_resolved _ _ _ _ Hr) as (links & Hl & Hf).
    rewrite (validate_transfer_inputs_after_links _ _ _ _ _ Hr Hl).
    rewrite bool_decide_false; [reflexivity|].
    intros Hnd.
    assert (Hlk : forall k, fulfills <$> inputs self !! k = Some (Some link) ->
                            links !! k = Some (to_uri link)).
    { intros k Hk.
      destruct (inputs self !! k) as [inp|] eqn:Hin; [|discriminate].
      simpl in Hk. injection Hk as Hk.
      destruct (Forall2_lookup_l _ _ _ _ _ Hf Hin)
        as (u & Hu & link' & Hlink' & ->).
      rewrite Hu. congruence. }
    apply Hij. eapply NoDup_lookup; [exact Hnd | apply Hlk, Hi | apply Hlk, Hj].
  - intros resolved Hr Hnd Hinj.
    destruct (input_links_resolved _ _ _ _ Hr) as (links & Hl & Hf).
    rewrite (validate_transfer_inputs_after_links _ _ _ _ _ Hr Hl).
    rewrite bool_decide_true; [reflexivity|].
    apply NoDup_alt. intros i j u Hi Hj.
    destruct (Forall2_lookup_r _ _ _ _ _ Hf Hi)
      as (inp1 & Hin1 & l1 & Hl1 & ->).
    destruct (Forall2_lookup_r _ _ _ _ _ Hf Hj)
      as (inp2 & Hin2 & l2 & Hl2 & Hu).
    assert (H1 : (fulfills <$> inputs self) !! i = Some (Some l1))
      by (rewrite list_lookup_fmap, Hin1; simpl; congruence).
    assert (H2 : (fulfills <$> inputs self) !! j = Some (Some l2))
      by (rewrite list_lookup_fmap, Hin2; simpl; congruence).
    assert (l1 = l2).
    { apply Hinj; [eapply list_elem_of_lookup_2, H1
                  | eapply list_elem_of_lookup_2, H2 | exact Hu]. }
    subst l2. eapply NoDup_lookup; [exact Hnd | exact H1 | exact H2].
Qed.

End TransferFacts.

(** ** [validate_transfer_inputs], on the sample transfers *)

Section TransferSampleFacts.
Import TransferSamples.

Example prior_tx_id :
  _id prior_tx
  = JStr "e4df6f75059ad1b632523bbdaa27376eadee3895cd19d2bf753e56a176c96a2b".
Proof. vm_compute. reflexivity. Qed.

(** C6, as the claim words it, fails on two transfers whose inputs all
    resolve.  [transfer_twice] points twice at the output of 60 and has
    one output of 100: the sums differ, 120 and 100, and the call raises
    [DoubleSpend].  [transfer_other_asset] spends the outputs of 60 and 40
    into 60 and 50 under another asset id: the sums differ, 100 and 110,
    and the call raises [AssetIdMismatch]. *)
Lemma sums_differ_without_amount_error :
  (resolved ← mapM (resolve_input planet []) (inputs transfer_twice);
   Ok (sum_amounts (map snd resolved))) = Ok 120 /\
  sum_amounts (outputs transfer_twice) = 100 /\
  @validate_transfer_inputs stand_in transfer_twice planet []
    = Raise DoubleSpend /\
  (resolved ← mapM (resolve_input planet []) (inputs transfer_other_asset);
   Ok (sum_amounts (map snd resolved))) = Ok 100 /\
  sum_amounts (outputs transfer_other_asset) = 110 /\
  @validate_transfer_inputs stand_in transfer_other_asset planet []
    = Raise AssetIdMismatch.
Proof. vm_compute. repeat split; reflexivity. Qed.

(** [amount_error_when_sums_differ] at [transfer_too_much] (60 and 40
    spent into 60 and 50) and at [transfer_both] (60 and 40 spent into
    100). *)
Lemma amount_error_when_sums_differ_witness :
  @validate_transfer_inputs stand_in transfer_too_much planet []
    = Raise AmountError /\
  @validate_transfer_inputs stand_in transfer_both planet [] = Ok true.
Proof.
  split.
  - eapply (proj1 (@amount_error_when_sums_differ stand_in
                     transfer_too_much planet [])).
    + vm_compute. reflexivity.
    + vm_compute. reflexivity.
    + apply (bool_decide_unpack _). vm_compute. exact I.
    + vm_compute. reflexivity.
    + vm_compute. reflexivity.
    + vm_compute. reflexivity.
    + vm_compute. discriminate.
  - edestruct (proj1 (@amount_error_when_sums_differ stand_in
                        transfer_both planet [])) as [_ Hgo].
    + vm_compute. reflexivity.
    + vm_compute. reflexivity.
    + apply (bool_decide_unpack _). vm_compute. exact I.
    + vm_compute. reflexivity.
    + vm_compute. reflexivity.
    + vm_compute. reflexivity.
    + rewrite Hgo; vm_compute; reflexivity.
Defined.

(** C7, as the claim words it, fails on two transfers whose two inputs
    carry the same link.  The inputs of [ghost_twice] name a transaction
    that neither the store nor the pending list has: the call raises
    [InputDoesNotExist].  The inputs of [out_of_range_twice] name output 5
    of [prior_tx], which has two outputs: the call raises [IndexError].
    Neither call reaches the check of the links. *)
Lemma repeated_link_without_double_spend :
  operation UtxoSamples.ghost_twice = TRANSFER /\
  fulfills <$> inputs UtxoSamples.ghost_twice
    = [Some UtxoSamples.ghost_link; Some UtxoSamples.ghost_link] /\
  @validate_transfer_inputs stand_in UtxoSamples.ghost_twice planet []
    = Raise InputDoesNotExist /\
  operation UtxoSamples.out_of_range_twice = TRANSFER /\
  fulfills <$> inputs UtxoSamples.out_of_range_twice
    = [Some {| txid := id_of prior_tx; output := 5 |};
       Some {| txid := id_of prior_tx; output := 5 |}] /\
  length (outputs prior_tx) = 2%nat /\
  @validate_transfer_inputs stand_in UtxoSamples.out_of_range_twice planet []
    = Raise IndexError.
Proof. vm_compute. repeat split; reflexivity. Qed.

(** [double_spend_on_repeated_link] at [transfer_twice], whose two inputs
    carry the link to output 0 of [prior_tx], and at [transfer_both],
    whose inputs point at the outputs 0 and 1 of [prior_tx]. *)
Lemma double_spend_on_repeated_link_witness :
  @validate_transfer_inputs stand_in transfer_twice planet []
    = Raise DoubleSpend /\
  @validate_transfer_inputs stand_in transfer_both planet [] = Ok true.
Proof.
  split.
  - apply (proj1 (@double_spend_on_repeated_link stand_in
                    transfer_twice planet [])
             0%nat 1%nat {| txid := id_of prior_tx; output := 0 |}).
    + discriminate.
    + vm_compute. reflexivity.
    + vm_compute. reflexivity.
    + apply (bool_decide_unpack _). vm_compute. exact I.
  - rewrite (proj2 (@double_spend_on_repeated_link stand_in
                      transfer_both planet [])
               [ (prior_tx, {| output_fulfillment := Samples.unsigned_leaf Samples.alice;
                               public_keys := [Samples.alice];
                               amount := 60 |});
                 (prior_tx, {| output_fulfillment := Samples.unsigned_leaf Samples.alice;
                               public_keys := [Samples.alice];
                               amount := 40 |}) ]).
    + vm_compute. reflexivity.
    + vm_compute. reflexivity.
    + apply (bool_decide_unpack _). vm_compute. exact I.
    + intros l1 l2 H1 H2 E.
      assert (Hl : forall l, Some l ∈ fulfills <$> inputs transfer_both ->
                     l = {| txid := id_of prior_tx; output := 0 |} \/
                     l = {| txid := id_of prior_tx; output := 1 |}).
      { intros l Hl.
        replace (fulfills <$> inputs transfer_both)
          with [ Some {| txid := id_of prior_tx; output := 0 |};
                 Some {| txid := id_of prior_tx; output := 1 |} ] in Hl
          by (vm_compute; reflexivity).
        apply elem_of_cons in Hl as [Hl|Hl]; [left; congruence|].
        apply list_elem_of_singleton in Hl. right; congruence. }
      destruct (Hl l1 H1) as [-> | ->]; destruct (Hl l2 H2) as [-> | ->];
        first [ reflexivity | exfalso; revert E; vm_compute; discriminate ].
Defined.

End TransferSampleFacts.

(** ** The constructor and the type registry *)

Section RegistryFacts.
Context `{Imports}.

Lemma allowed_operation_base (operation : string) :
  operation ∉ ALLOWED_OPERATIONS ->
  allowed_operation Transaction_class (JStr operation) = None.
Proof.
  intros Hop. unfold allowed_operation. simpl.
  rewrite bool_decide_false by exact Hop. reflexivity.
Qed.

(** C9.  For an operation string that is neither [CREATE] nor
    [TRANSFER]: the constructor of the class [Transaction] raises
    [ValueError]; [resolve_class] answers, for an operation that is not
    registered, with the class registered for [CREATE]; and when that
    class is [Transaction] itself, [from_dict] raises and returns no
    transaction. *)
Theorem base_class_rejects_unknown_operation (operation : string) :
  operation ∉ ALLOWED_OPERATIONS ->
  (forall asset inputs outputs metadata version hash_id tx_dict,
     Transaction_init Transaction_class (JStr operation) asset inputs outputs
       metadata version hash_id tx_dict = Raise ValueError) /\
  (forall type_registry : gmap string TxClass,
     type_registry !! operation = None ->
     resolve_class type_registry (JStr operation)
       = Ok (type_registry !! CREATE)) /\
  (forall (type_registry : gmap string TxClass) tx skip_schema_validation,
     type_registry !! operation = None ->
     type_registry !! CREATE = Some Transaction_class ->
     getitem tx "operation" = Ok (JStr operation) ->
     exists e, from_dict type_registry tx skip_schema_validation = Raise e).
Proof.
  intros Hop. split; [|split].
  - intros. unfold Transaction_init.
    rewrite (allowed_operation_base _ Hop). reflexivity.
  - intros type_registry Hreg. unfold resolve_class. rewrite Hreg. reflexivity.
  - intros type_registry tx skip Hreg Hcreate Hget.
    unfold from_dict.
    destruct tx as [| | | | |d]; try discriminate.
    unfold getitem in Hget.
    destruct (dict_get d "operation") as [op|] eqn:Hd; [|discriminate].
    injection Hget as ->.
    unfold resolve_class. rewrite Hreg, Hcreate. simpl.
    repeat match goal with
      | |- exists e, Raise _ = Raise e => eexists; reflexivity
      | |- exists e, (match ?x with _ => _ end ≫= _) = _ =>
          destruct x eqn:?; simpl
      | |- exists e, (?m ≫= _) = _ => destruct m eqn:?; simpl
      end.
    all: simplify_eq.
    all: unfold Transaction_init; rewrite (allowed_operation_base _ Hop); eauto.
Qed.

End RegistryFacts.

(** [base_class_rejects_unknown_operation] at the operation [VOTE], the
    registry [base_registry] and the dict [vote_dict]. *)
Lemma base_class_rejects_unknown_operation_witness :
  Transaction_init Transaction_class (JStr "VOTE") JNull [] [] JNull JNull
    JNull None = Raise ValueError /\
  resolve_class MoreSamples.base_registry (JStr "VOTE")
    = Ok (Some Transaction_class) /\
  @from_dict stand_in MoreSamples.base_registry MoreSamples.vote_dict true
    = Raise ValueError.
Proof.
  assert (Hop : "VOTE" ∉ ALLOWED_OPERATIONS)
    by (apply (bool_decide_unpack _); vm_compute; exact I).
  destruct (@base_class_rejects_unknown_operation stand_in "VOTE" Hop)
    as (Hinit & Hres & Hfrom).
  split; [apply Hinit|].
  split; [vm_compute; reflexivity|].
  vm_compute. reflexivity.
Defined.

(** ** [_input_valid] and [inputs_valid] *)

Section InputValidFacts.
Context `{Imports}.




End InputValidFacts.


(** ** [from_dict] and [to_dict] *)

Lemma py_eq_refl (v : json) : py_eq v v.
Proof.
  induction v as [| | | |l IH|d IH] using json_ind'; try constructor.
  - induction IH; constructor; assumption.
  - intros k. induction IH as [|[k' x] d Hx _ IHd]; simpl; [constructor|].
    destruct (String.eqb k k'); [constructor; exact Hx | exact IHd].
Qed.

Lemma dict_get_not_key (d : list (string * json)) (keys : list string)
    (k : string) :
  Forall (fun kv => fst kv ∈ keys) d -> k ∉ keys -> dict_get d k = None.
Proof.
  intros Hd Hk. induction Hd as [|[k' x] d Hx _ IH]; simpl; [reflexivity|].
  destruct (String.eqb_spec k k') as [->|_]; [|exact IH].
  exfalso. apply Hk, Hx.
Qed.

Section RoundTrip.
Context `{Imports}.

Lemma Forall2_from_dict_mapM {A : Type} (from : json -> result A)
    (to : A -> json) (l : list json) (l' : list A) :
  Forall2 (fun x y => from x = Ok y /\ py_eq (to y) x) l l' ->
  mapM from l = Ok l' /\ Forall2 py_eq (map to l') l.
Proof.
  intros Hf. split.
  - apply mapM_Ok_Forall2. eapply Forall2_impl; [exact Hf|].
    intros x y [Hx _]. exact Hx.
  - induction Hf as [|x y l l' [_ Hxy] _ IH]; simpl; constructor; assumption.
Qed.

(** C8.  For every well-formed transaction dict [tx], [from_dict] returns
    a transaction, and [to_dict] of that transaction is [tx] up to the
    order of the keys. *)
Theorem to_dict_from_dict (type_registry : gmap string TxClass)
    (tx : list (string * json)) :
  well_formed type_registry tx ->
  exists t : Transaction,
    from_dict type_registry (JDict tx) true = Ok t /\
    py_eq (to_dict t) (JDict tx).
Proof.
  intros (ins & outs & op & ast & md & ver & id & cls & inps
          & outps & Hkeys & Hins & Houts & Hop & Hasset & Hmeta & Hver & Hid
          & Hcls & Hallowed & Hcreate & Htransfer & Hmd & Hv & Hfi & Hfo).
  destruct (Forall2_from_dict_mapM _ _ _ _ Hfi) as [Hmi Hpi].
  destruct (Forall2_from_dict_mapM _ _ _ _ Hfo) as [Hmo Hpo].
  assert (Hinit : Transaction_init cls (JStr op) ast inps outps md
                    ver id (Some (JDict tx))
                  = Ok {| version := ver; operation := op;
                          asset := ast; inputs := inps;
                          outputs := outps; metadata := md;
                          _id := id; tx_dict := Some (JDict tx) |}).
  { unfold Transaction_init, allowed_operation.
    rewrite bool_decide_true by exact Hallowed.
    replace (String.eqb op CREATE && negb (is_none ast)
             && negb (dict_with "data" ast)) with false.
    2:{ destruct (String.eqb_spec op CREATE) as [E|_]; [|reflexivity].
        destruct (Hcreate E) as [-> | ->]; [reflexivity|].
        simpl. rewrite andb_false_r. reflexivity. }
    replace (String.eqb op TRANSFER && negb (dict_with "id" ast)) with false.
    2:{ destruct (String.eqb_spec op TRANSFER) as [E|_]; [|reflexivity].
        rewrite (Htransfer E). reflexivity. }
    replace (negb (is_none md) && negb (is_dict md)) with false.
    2:{ destruct Hmd as [-> | ->]; [reflexivity|].
        rewrite andb_false_r. reflexivity. }
    rewrite Hv. reflexivity. }
  eexists. split.
  - unfold from_dict. rewrite Hop, Hcls. simpl.
    unfold getitem. rewrite Hins. simpl. rewrite Hmi. simpl.
    rewrite Houts. simpl. rewrite Hmo. simpl.
    rewrite Hop, Hasset, Hmeta, Hver, Hid. simpl. exact Hinit.
  - unfold to_dict. simpl. constructor. intros k.
    destruct (decide (k ∈ tx_keys)) as [Hk|Hk].
    + unfold tx_keys in Hk.
      repeat (apply elem_of_cons in Hk as [->|Hk]);
        [ | | | | | | | inversion Hk ]; simpl.
      * rewrite Hins. constructor. constructor. exact Hpi.
      * rewrite Houts. constructor. constructor. exact Hpo.
      * rewrite Hop. constructor. constructor.
      * rewrite Hmeta. constructor. apply py_eq_refl.
      * rewrite Hasset. constructor. apply py_eq_refl.
      * rewrite Hver. constructor. apply py_eq_refl.
      * rewrite Hid. constructor. apply py_eq_refl.
    + rewrite (dict_get_not_key tx tx_keys k Hkeys Hk).
      rewrite (dict_get_not_key _ tx_keys k); [constructor| |exact Hk].
      repeat constructor; simpl; unfold tx_keys; set_solver.
Qed.

End RoundTrip.

(** [to_dict_from_dict] at [signed_create_dict], with the registry
    [base_registry] and the stand-in. *)
Lemma to_dict_from_dict_witness :
  exists t : Transaction,
    @from_dict stand_in MoreSamples.base_registry
      (JDict Samples.signed_create_dict) true = Ok t /\
    py_eq (@to_dict stand_in t) (JDict Samples.signed_create_dict).
Proof.
  apply (@to_dict_from_dict stand_in).
  unfold well_formed. do 10 eexists.
  split; [apply (bool_decide_unpack _); vm_compute; exact I|].
  split; [reflexivity|]. split; [reflexivity|]. split; [reflexivity|].
  split; [reflexivity|]. split; [reflexivity|]. split; [reflexivity|].
  split; [reflexivity|].
  split; [vm_compute; reflexivity|].
  split; [apply (bool_decide_unpack _); vm_compute; exact I|].
  split; [intros _; right; reflexivity|].
  split; [intros [=]|].
  split; [left; reflexivity|].
  split; [reflexivity|].
  split.
  - constructor; [|constructor]. split; [vm_compute; reflexivity|].
    match goal with
    | |- py_eq ?a ?b =>
        replace a with b by (vm_compute; reflexivity); apply py_eq_refl
    end.
  - constructor; [|constructor]. split; [vm_compute; reflexivity|].
    match goal with
    | |- py_eq ?a ?b =>
        replace a with b by (vm_compute; reflexivity); apply py_eq_refl
    end.
Defined.

(** * Further properties of [transaction.py] *)

Lemma lookup_enumerate {A : Type} (l : list A) (k : nat) :
  enumerate l !! k = (fun x => (Z.of_nat k, x)) <$> l !! k.
Proof. exact (list_lookup_imap (fun i x => (Z.of_nat i, x)) l k). Qed.

Lemma length_enumerate {A : Type} (l : list A) :
  length (enumerate l) = length l.
Proof. unfold enumerate. apply length_imap. Qed.

Lemma nth_error_lookup {A : Type} (l : list A) (k : nat) :
  nth_error l k = l !! k.
Proof.
  revert k. induction l as [|x l IH]; intros [|k]; simpl; try reflexivity.
  apply IH.
Qed.

(** [l[i]]: an index from 0 to [len(l) - 1] is a position of the list, an
    index from [-len(l)] to [-1] counts from the end, any other index
    raises [IndexError]. *)
Lemma py_index_spec {A : Type} (l : list A) (i : Z) :
  py_index l i =
  if (0 <=? i) && (i <? Z.of_nat (length l)) then
    match l !! Z.to_nat i with Some x => Ok x | None => Raise IndexError end
  else if (- Z.of_nat (length l) <=? i) && (i <? 0) then
    match l !! Z.to_nat (i + Z.of_nat (length l)) with
    | Some x => Ok x
    | None => Raise IndexError
    end
  else Raise IndexError.
Proof.
  unfold py_index. rewrite !nth_error_lookup.
  destruct (Z.ltb_spec i 0); destruct (Z.leb_spec 0 i); try lia; simpl.
  - destruct (Z.leb_spec 0 (i + Z.of_nat (length l)));
      destruct (Z.leb_spec (- Z.of_nat (length l)) i); try lia; simpl;
      [|reflexivity].
    destruct (Z.ltb_spec (i + Z.of_nat (length l)) (Z.of_nat (length l)));
      [reflexivity | lia].
  - destruct (Z.ltb_spec i (Z.of_nat (length l))); simpl; [reflexivity|].
    destruct (Z.leb_spec (- Z.of_nat (length l)) i); reflexivity.
Qed.

Lemma py_index_nat {A : Type} (l : list A) (k : nat) :
  py_index l (Z.of_nat k) =
  match l !! k with
  | Some x => Ok x
  | None => Raise IndexError
  end.
Proof.
  rewrite py_index_spec. rewrite Nat2Z.id.
  destruct (Z.leb_spec 0 (Z.of_nat k)); [|lia]. simpl.
  destruct (Z.ltb_spec (Z.of_nat k) (Z.of_nat (length l))) as [Hlt|Hge].
  - reflexivity.
  - destruct (Z.leb_spec (- Z.of_nat (length l)) (Z.of_nat k)); simpl;
      destruct (Z.ltb_spec (Z.of_nat k) 0); simpl; try lia;
      rewrite lookup_ge_None_2 by lia; reflexivity.
Qed.

Lemma json_eqb_eq (a b : json) : json_eqb a b = true <-> a = b.
Proof.
  revert b.
  induction a as [|ab|an|az|l IH|d IH] using json_ind'; intros c;
    destruct c as [|b'|n'|s'|l'|d']; simpl;
    try (split; [discriminate | intros [=]]); try tauto.
  - rewrite Bool.eqb_true_iff. split; [intros ->; reflexivity | intros [= ->]; reflexivity].
  - rewrite Z.eqb_eq. split; [intros ->; reflexivity | intros [= ->]; reflexivity].
  - rewrite String.eqb_eq. split; [intros ->; reflexivity | intros [= ->]; reflexivity].
  - revert l'. induction IH as [|x l Hx _ IHl]; intros [|y l']; simpl;
      try (split; [discriminate | intros [=]]); try tauto.
    rewrite andb_true_iff, Hx, IHl.
    split; [intros [-> [= ->]]; reflexivity | intros [= -> ->]; tauto].
  - revert d'. induction IH as [|[k x] d Hx _ IHd]; intros [|[k' y] d']; simpl;
      try (split; [discriminate | intros [=]]); try tauto.
    simpl in Hx.
    rewrite !andb_true_iff, String.eqb_eq, Hx, IHd.
    split; [intros [[-> ->] [= ->]]; reflexivity | intros [= -> -> ->]; tauto].
Qed.

Lemma json_eqb_refl (a : json) : json_eqb a a = true.
Proof. apply json_eqb_eq. reflexivity. Qed.

Lemma dict_get_set_eq (d : list (string * json)) (k : string) (v : json) :
  dict_get (dict_set d k v) k = Some v.
Proof.
  induction d as [|[k' v'] d IH]; simpl.
  - rewrite String.eqb_refl. reflexivity.
  - destruct (String.eqb k k') eqn:E; simpl; rewrite E; [reflexivity | exact IH].
Qed.

Lemma dict_get_set_ne (d : list (string * json)) (k k' : string) (v : json) :
  k' <> k -> dict_get (dict_set d k v) k' = dict_get d k'.
Proof.
  intros Hne. induction d as [|[k0 v0] d IH]; simpl.
  - destruct (String.eqb_spec k' k); [contradiction | reflexivity].
  - destruct (String.eqb_spec k k0) as [->|Hk]; simpl.
    + destruct (String.eqb_spec k' k0); [contradiction | reflexivity].
    + destruct (String.eqb k' k0); [reflexivity | exact IH].
Qed.

Lemma dict_set_set (d : list (string * json)) (k : string) (v w : json) :
  dict_set (dict_set d k v) k w = dict_set d k w.
Proof.
  induction d as [|[k' v'] d IH]; simpl.
  - rewrite String.eqb_refl. reflexivity.
  - destruct (String.eqb k k') eqn:E; simpl; rewrite E; [reflexivity|].
    rewrite IH. reflexivity.
Qed.

Lemma dict_set_same (d : list (string * json)) (k : string) (v : json) :
  dict_get d k = Some v -> dict_set d k v = d.
Proof.
  induction d as [|[k' v'] d IH]; simpl; [discriminate|].
  destruct (String.eqb_spec k k') as [->|Hk].
  - intros [= ->]. reflexivity.
  - intros Hd. rewrite (IH Hd). reflexivity.
Qed.

Section MoreTransactionFacts.
Context `{Imports}.

(** X1.  When [unspent_outputs] can be read to its end, it yields one
    record per output, in order: the record at position [k] has the
    output index [k], the id of the transaction, the amount and the
    condition URI of the output at position [k], and as asset id the id of
    the transaction for [CREATE], [asset['id']] for [TRANSFER]. *)
Theorem unspent_outputs_spec (self : Transaction) (utxos : list UnspentOutput) :
  unspent_outputs self = Ok utxos ->
  length utxos = length (outputs self) /\
  forall (k : nat) (u : UnspentOutput),
    utxos !! k = Some u ->
    exists out,
      outputs self !! k = Some out /\
      output_index u = Z.of_nat k /\
      transaction_id u = _id self /\
      utxo_amount u = amount out /\
      utxo_condition_uri u = condition_uri (output_fulfillment out) /\
      (operation self = CREATE -> asset_id u = _id self) /\
      (operation self = TRANSFER -> getitem (asset self) "id" = Ok (asset_id u)).
Proof.
  unfold unspent_outputs. intros Hu.
  destruct (String.eqb_spec (operation self) CREATE) as [Hc|Hc].
  - simpl in Hu. apply mapM_Ok_Forall2 in Hu.
    split; [rewrite <- (Forall2_length _ _ _ Hu); apply length_enumerate|].
    intros k u Hk.
    destruct (Forall2_lookup_r _ _ _ _ _ Hu Hk) as ([idx out] & Hin & Hout).
    rewrite lookup_enumerate in Hin.
    destruct (outputs self !! k) as [out'|]; [|discriminate].
    simpl in Hin. injection Hin as <- <-. injection Hout as <-.
    exists out'. simpl. repeat split; try reflexivity.
    intros Ht. rewrite Ht in Hc. discriminate.
  - destruct (String.eqb_spec (operation self) TRANSFER) as [Ht|Ht].
    + destruct (getitem (asset self) "id") as [a|e] eqn:Ha; [|discriminate].
      simpl in Hu. apply mapM_Ok_Forall2 in Hu.
      split; [rewrite <- (Forall2_length _ _ _ Hu); apply length_enumerate|].
      intros k u Hk.
      destruct (Forall2_lookup_r _ _ _ _ _ Hu Hk) as ([idx out] & Hin & Hout).
      rewrite lookup_enumerate in Hin.
      destruct (outputs self !! k) as [out'|]; [|discriminate].
      simpl in Hin. injection Hin as <- <-. injection Hout as <-.
      exists out'. simpl. repeat split; try reflexivity.
      intros Hc'. contradiction.
    + simpl in Hu. apply mapM_Ok_Forall2 in Hu.
      split; [rewrite <- (Forall2_length _ _ _ Hu); apply length_enumerate|].
      intros k u Hk.
      destruct (Forall2_lookup_r _ _ _ _ _ Hu Hk) as ([idx out] & Hin & Hout).
      discriminate.
Qed.

Lemma to_inputs_None_imap (self : Transaction) (s : string) :
  _id self = JStr s ->
  to_inputs self None =
    Ok (imap (fun k out =>
                {| fulfillment := Some (output_fulfillment out);
                   owners_before := public_keys out;
                   fulfills := Some {| txid := s; output := Z.of_nat k |} |})
          (outputs self)).
Proof.
  intros Hid.
  unfold to_inputs. apply mapM_Ok_Forall2.
  apply Forall2_same_length_lookup. split.
  - rewrite length_map, length_seq, length_imap. reflexivity.
  - intros k idx inp Hidx Hinp.
    rewrite list_lookup_fmap in Hidx.
    destruct (seq 0 (length (outputs self)) !! k) as [n|] eqn:Hn;
      [|discriminate].
    simpl in Hidx. injection Hidx as <-.
    apply lookup_seq in Hn as [-> Hlt]. simpl.
    rewrite list_lookup_imap in Hinp.
    destruct (outputs self !! k) as [out|] eqn:Hout; [|discriminate].
    simpl in Hinp. injection Hinp as <-.
    rewrite py_index_nat, Hout. simpl. unfold link_to. rewrite Hid.
    reflexivity.
Qed.

(** X2.  For a transaction that has an id and without a choice of
    indices ([None] or the empty list), [to_inputs] returns one input per
    output, in order: the input at position [k] carries the fulfillment
    and the public keys of the output at position [k] and the link to that
    output of this transaction. *)
Theorem to_inputs_all (self : Transaction) (s : string) :
  _id self = JStr s ->
  to_inputs self None =
    Ok (imap (fun k out =>
                {| fulfillment := Some (output_fulfillment out);
                   owners_before := public_keys out;
                   fulfills := Some {| txid := s; output := Z.of_nat k |} |})
          (outputs self)) /\
  to_inputs self (Some []) = to_inputs self None.
Proof.
  intros Hid. split; [exact (to_inputs_None_imap self s Hid) | reflexivity].
Qed.

(** X3.  The inputs [to_inputs] derives from a transaction of the store
    point back at its outputs: the input at position [k] resolves to the
    output at position [k]. *)
Theorem to_inputs_point_back (self : Transaction) (s : string)
    (planet : Planet) (cur : list Transaction) (ins : list Input) :
  _id self = JStr s ->
  get_transaction planet s = Some self ->
  to_inputs self None = Ok ins ->
  length ins = length (outputs self) /\
  forall (k : nat) (input_ : Input),
    ins !! k = Some input_ ->
    pointed_output planet cur input_ = outputs self !! k.
Proof.
  intros Hid Hget Hins.
  rewrite (to_inputs_None_imap self s Hid) in Hins. injection Hins as <-.
  split; [apply length_imap|].
  intros k input_ Hk. rewrite list_lookup_imap in Hk.
  destruct (outputs self !! k) as [out|] eqn:Hout; [|discriminate].
  simpl in Hk. injection Hk as <-.
  unfold pointed_output. simpl. rewrite Hget. simpl.
  rewrite py_index_nat, Hout. reflexivity.
Qed.

End MoreTransactionFacts.

Section MoreSigningFacts.
Context `{Imports}.



Lemma gen_key_pairs_foldl (keys : list string) (m : gmap string string)
    (pk sk : string) :
  foldl (fun m k => <[gen_public_key k := k]> m) m keys !! pk = Some sk ->
  (sk ∈ keys /\ gen_public_key sk = pk) \/ m !! pk = Some sk.
Proof.
  revert m. induction keys as [|k keys IH]; intros m; simpl.
  - intros Hm. right. exact Hm.
  - intros Hm. destruct (IH _ Hm) as [[Hin Hpk]|Hm'].
    + left. split; [right; exact Hin | exact Hpk].
    + destruct (decide (gen_public_key k = pk)) as [E|E].
      * rewrite E, lookup_insert_eq in Hm'. injection Hm' as <-.
        left. split; [left | exact E].
      * rewrite lookup_insert_ne in Hm' by exact E. right. exact Hm'.
Qed.

Lemma gen_key_pairs_foldl_in (keys : list string) (m : gmap string string)
    (pk : string) :
  (is_Some (m !! pk) \/ exists sk, sk ∈ keys /\ gen_public_key sk = pk) ->
  is_Some (foldl (fun m k => <[gen_public_key k := k]> m) m keys !! pk).
Proof.
  revert m. induction keys as [|k keys IH]; intros m; simpl.
  - intros [Hm | (sk & Hin & _)]; [exact Hm | inversion Hin].
  - intros [Hm | (sk & Hin & Hpk)].
    + apply IH. left.
      destruct (decide (gen_public_key k = pk)) as [E|E].
      * rewrite E, lookup_insert_eq. eauto.
      * rewrite lookup_insert_ne by exact E. exact Hm.
    + apply elem_of_cons in Hin as [->|Hin].
      * apply IH. left. rewrite Hpk, lookup_insert_eq. eauto.
      * apply IH. right. eauto.
Qed.

Lemma gen_key_pairs_in (private_keys : list string) (sk : string) :
  sk ∈ private_keys ->
  is_Some (gen_key_pairs private_keys !! gen_public_key sk).
Proof.
  intros Hin. unfold gen_key_pairs. apply gen_key_pairs_foldl_in.
  right. eauto.
Qed.

(** X5.  The dict [key_pairs] of [sign] maps public keys to private keys
    of the list: an entry holds a private key of the list under the public
    key of that private key, and every private key of the list has an
    entry under its public key. *)
Theorem gen_key_pairs_spec (private_keys : list string) :
  (forall pk sk,
     gen_key_pairs private_keys !! pk = Some sk ->
     sk ∈ private_keys /\ gen_public_key sk = pk) /\
  (forall sk,
     sk ∈ private_keys ->
     is_Some (gen_key_pairs private_keys !! gen_public_key sk)).
Proof.
  unfold gen_key_pairs. split.
  - intros pk sk Hm. destruct (gen_key_pairs_foldl _ _ _ _ Hm) as [Hin|He];
      [exact Hin|].
    rewrite lookup_empty in He. discriminate.
  - intros sk Hin. unfold gen_key_pairs in Hin.
    apply (gen_key_pairs_in private_keys sk Hin).
Qed.

Lemma sign_inputs_ok (todo : list Input) (i : nat) (self : Transaction)
    (message : string) (key_pairs : gmap string string) :
  Forall (fun input_ => exists s, _sign_input input_ message key_pairs = Ok s)
    todo ->
  exists self', sign_inputs todo i self message key_pairs = (self', Ok tt).
Proof.
  intros Hall. revert i self.
  induction Hall as [|input_ todo [s Hs] _ IH]; intros i self; simpl.
  - eauto.
  - rewrite Hs. apply IH.
Qed.

(** X6.  [sign] returns when the unsigned dict of the transaction can be
    built and every input is an Ed25519 leaf whose first owner is the
    public key of one of the private keys. *)
Theorem sign_succeeds (self : Transaction) (private_keys : list string) :
  (exists d, _remove_signatures (to_dict self) = Ok d) ->
  Forall (fun input_ =>
            exists pk sg owner others sk,
              fulfillment input_ = Some (Ed25519Sha256 pk sg) /\
              owners_before input_ = owner :: others /\
              sk ∈ private_keys /\
              gen_public_key sk = owner)
    (inputs self) ->
  exists self', sign self (Some private_keys) = (self', Ok tt).
Proof.
  intros [d Hd] Hall. unfold sign. rewrite Hd.
  destruct (sign_inputs_ok (inputs self) 0 self (_to_str d)
              (gen_key_pairs private_keys)) as [self' Hs].
  - eapply Forall_impl; [exact Hall|].
    intros input_ (pk & sg & owner & others & sk & Hf & Ho & Hin & Hpk).
    unfold _sign_input. rewrite Hf.
    unfold _sign_simple_signature_fulfillment, deepcopy. rewrite Ho.
    change (py_index (owner :: others) 0) with (Ok (A := string) owner) at 1.
    simpl.
    destruct (gen_key_pairs_in private_keys sk Hin) as [sk' Hsk'].
    rewrite Hpk in Hsk'. rewrite Hsk'. eauto.
  - rewrite Hs. eauto.
Qed.

End MoreSigningFacts.

Section MoreValidationFacts.
Context `{Imports}.

Lemma strip_inputs (ins : list json) :
  mapM (fun input_ => setitem input_ "fulfillment" JNull) ins =
  if forallb is_dict ins then Ok (map strip_fulfillment ins)
  else Raise TypeError.
Proof.
  induction ins as [|i ins IH]; simpl; [reflexivity|].
  destruct i; simpl; try reflexivity.
  rewrite IH. destruct (forallb is_dict ins); reflexivity.
Qed.

Lemma strip_fulfillment_twice (i : json) :
  strip_fulfillment (strip_fulfillment i) = strip_fulfillment i.
Proof. destruct i; simpl; try reflexivity. rewrite dict_set_set. reflexivity. Qed.

Lemma forallb_is_dict_strip (ins : list json) :
  forallb is_dict ins = true ->
  forallb is_dict (map strip_fulfillment ins) = true.
Proof.
  induction ins as [|i ins IH]; simpl; [reflexivity|].
  destruct i; simpl; try discriminate. exact IH.
Qed.

(** X7.  [_remove_signatures] on a dict whose [inputs] is a list: when
    every input is a dict, the result is the dict with the [fulfillment]
    of every input set to [None], every other entry as it was; when some
    input is not a dict, the call raises [TypeError].  Removing the
    signatures a second time changes nothing. *)
Theorem _remove_signatures_spec (tx_dict : list (string * json))
    (ins : list json) :
  dict_get tx_dict "inputs" = Some (JList ins) ->
  _remove_signatures (JDict tx_dict) =
    (if forallb is_dict ins
     then Ok (JDict (dict_set tx_dict "inputs"
                       (JList (map strip_fulfillment ins))))
     else Raise TypeError) /\
  (forall r, _remove_signatures (JDict tx_dict) = Ok r ->
             _remove_signatures r = Ok r).
Proof.
  intros Hins.
  assert (Hrm : forall d l,
            dict_get d "inputs" = Some (JList l) ->
            _remove_signatures (JDict d) =
            if forallb is_dict l
            then Ok (JDict (dict_set d "inputs" (JList (map strip_fulfillment l))))
            else Raise TypeError).
  { intros d l Hd. unfold _remove_signatures, deepcopy. simpl.
    rewrite Hd. simpl. rewrite strip_inputs.
    destruct (forallb is_dict l); reflexivity. }
  split; [apply Hrm, Hins|].
  intros r. rewrite (Hrm _ _ Hins).
  destruct (forallb is_dict ins) eqn:Hall; [|discriminate].
  intros [= <-].
  rewrite (Hrm _ (map strip_fulfillment ins)) by apply dict_get_set_eq.
  rewrite forallb_is_dict_strip by exact Hall.
  rewrite dict_set_set, map_map.
  do 4 f_equal. apply map_ext. intros i. apply strip_fulfillment_twice.
Qed.

(** X8.  [_input_valid] returns [True] exactly when the input has a
    fulfillment that can be serialized and parsed again, the parsed
    fulfillment validates against the message of the input, and, for an
    operation other than [CREATE], the condition URI of the fulfillment is
    the given one. *)
Theorem _input_valid_true_iff (input_ : Input)
    (operation message output_condition_uri : string) :
  _input_valid input_ operation message output_condition_uri = Ok true <->
  exists ccffill uri parsed_ffill,
    fulfillment input_ = Some ccffill /\
    serialize_uri ccffill = Ok uri /\
    from_uri uri = Ok parsed_ffill /\
    validate parsed_ffill (input_message message (fulfills input_)) = Ok true /\
    (operation = CREATE \/ output_condition_uri = condition_uri ccffill).
Proof.
  unfold _input_valid. split.
  - destruct (fulfillment input_) as [ccffill|]; [|discriminate].
    destruct (serialize_uri ccffill) as [uri|e] eqn:Hs; simpl.
    2:{ destruct (caught_by_input_valid e); discriminate. }
    destruct (from_uri uri) as [parsed|e] eqn:Hp.
    2:{ destruct (caught_by_input_valid e); discriminate. }
    destruct (validate parsed _) as [b|] eqn:Hv; simpl; [|discriminate].
    intros [= Hb]. apply andb_true_iff in Hb as [Ho ->].
    exists ccffill, uri, parsed. repeat split; try assumption.
    destruct (String.eqb_spec operation CREATE) as [->|_]; [left; reflexivity|].
    right. apply String.eqb_eq, Ho.
  - intros (ccffill & uri & parsed & -> & Hs & Hp & Hv & Ho).
    rewrite Hs. simpl. rewrite Hp, Hv. simpl.
    destruct Ho as [-> | ->]; [reflexivity|].
    rewrite String.eqb_refl. destruct (String.eqb operation CREATE); reflexivity.
Qed.

Lemma all_valid_true_iff (self : Transaction) (message : string) (i : nat)
    (uris : list string) :
  all_valid self message i uris = Ok true <->
  forall (k : nat) (uri : string),
    uris !! k = Some uri ->
    exists input_,
      inputs self !! (i + k)%nat = Some input_ /\
      _input_valid input_ (operation self) message uri = Ok true.
Proof.
  revert i. induction uris as [|u uris IH]; intros i; simpl.
  - split; [intros _ k uri Hk; discriminate | reflexivity].
  - split.
    + destruct (inputs self !! i) as [input_|] eqn:Hi; [|discriminate].
      destruct (_input_valid input_ (operation self) message u) as [[]|] eqn:Hv;
        simpl; try discriminate.
      intros Hrest [|k] uri Hk; simpl in Hk.
      * injection Hk as <-. rewrite Nat.add_0_r. eauto.
      * replace (i + S k)%nat with (S i + k)%nat by lia.
        eapply IH; eassumption.
    + intros Hall.
      destruct (Hall 0%nat u eq_refl) as (input_ & Hi & Hv).
      rewrite Nat.add_0_r in Hi. rewrite Hi, Hv. simpl.
      apply IH. intros k uri Hk.
      replace (S i + k)%nat with (i + S k)%nat by lia.
      apply (Hall (S k) uri Hk).
Qed.

(** X9.  [_inputs_valid] returns [True] exactly when there are as many
    condition URIs as inputs, the message can be built, and every input
    is valid against the URI at its position. *)
Theorem _inputs_valid_true_iff (self : Transaction)
    (output_condition_uris : list string) :
  _inputs_valid self output_condition_uris = Ok true <->
  exists message,
    validation_message self = Ok message /\
    Forall2 (fun input_ uri =>
               _input_valid input_ (operation self) message uri = Ok true)
      (inputs self) output_condition_uris.
Proof.
  unfold _inputs_valid. split.
  - destruct (Nat.eqb_spec (length (inputs self))
                (length output_condition_uris)) as [Hlen|]; [|discriminate].
    simpl. destruct (validation_message self) as [message|]; [|discriminate].
    simpl. intros Hall. exists message. split; [reflexivity|].
    apply Forall2_same_length_lookup. split; [exact Hlen|].
    intros k input_ uri Hi Hu.
    destruct (proj1 (all_valid_true_iff _ _ _ _) Hall k uri Hu)
      as (input' & Hi' & Hv).
    simpl in Hi'. congruence.
  - intros (message & Hmsg & Hall).
    rewrite (Forall2_length _ _ _ Hall), Nat.eqb_refl. simpl.
    rewrite Hmsg. simpl. apply all_valid_true_iff.
    intros k uri Hu.
    destruct (Forall2_lookup_r _ _ _ _ _ Hall Hu) as (input_ & Hi & Hv).
    exists input_. split; [exact Hi | exact Hv].
Qed.

End MoreValidationFacts.

(** ** [get_asset_id] *)








(** ** More on [validate_transfer_inputs] *)

(** X11.  The search of the pending transactions takes the last one
    that carries the id, and keeps what it had when none does. *)
Theorem find_current_last (current_transactions : list Transaction)
    (input_txid : string) (input_tx : option Transaction) :
  find_current current_transactions input_txid input_tx =
  match last (List.filter (fun ctxn => json_eqb (_id ctxn) (JStr input_txid))
                current_transactions) with
  | Some ctxn => Some ctxn
  | None => input_tx
  end.
Proof.
  revert input_tx. induction current_transactions as [|c l IH];
    intros input_tx; simpl; [reflexivity|].
  rewrite IH.
  destruct (json_eqb (_id c) (JStr input_txid)); [|reflexivity].
  destruct (List.filter _ l) as [|x l'] eqn:Hf; simpl; [reflexivity|].
  change (last (c :: x :: l')) with (last (x :: l')).
  destruct (last (x :: l')) eqn:Hl; [reflexivity|].
  apply last_None in Hl. discriminate.
Qed.

Section MoreTransferFacts.
Context `{Imports}.



(** X13.  A transaction without inputs is not validated:
    [validate_transfer_inputs] raises [KeyError], the one of [pop] on the
    empty set of asset ids. *)
Theorem validate_transfer_inputs_no_inputs (self : Transaction)
    (planet : Planet) (cur : list Transaction) :
  inputs self = [] ->
  validate_transfer_inputs self planet cur = Raise KeyError.
Proof.
  intros Hin. unfold validate_transfer_inputs. rewrite Hin. reflexivity.
Qed.

(** X14.  The index of a link is used as a Python index.  For an input
    whose transaction is in the store and whose output is not reported as
    spent: an index from 0 to [n - 1], [n] the number of outputs, resolves
    to the output at that position; an index from [-n] to [-1] resolves
    too, to the output counted from the end; any other index raises
    [IndexError]. *)
Theorem resolve_input_index (planet : Planet) (cur : list Transaction)
    (input_ : Input) (link : TransactionLink) (input_tx : Transaction) :
  fulfills input_ = Some link ->
  get_transaction planet (txid link) = Some input_tx ->
  get_spent planet (txid link) (output link) cur = None ->
  let n := Z.of_nat (length (outputs input_tx)) in
  (0 <= output link < n ->
   exists out,
     outputs input_tx !! Z.to_nat (output link) = Some out /\
     resolve_input planet cur input_ = Ok (input_tx, out)) /\
  (- n <= output link < 0 ->
   exists out,
     outputs input_tx !! Z.to_nat (output link + n) = Some out /\
     resolve_input planet cur input_ = Ok (input_tx, out)) /\
  (output link < - n \/ n <= output link ->
   resolve_input planet cur input_ = Raise IndexError).
Proof.
  intros Hf Hget Hsp n.
  assert (Hres : resolve_input planet cur input_ =
                 (out ← py_index (outputs input_tx) (output link);
                  Ok (input_tx, out))).
  { unfold resolve_input. rewrite Hf, Hget, Hsp. reflexivity. }
  rewrite Hres, py_index_spec. fold n. split; [|split].
  - intros [H0 Hn].
    destruct (Z.leb_spec 0 (output link)); [|lia].
    destruct (Z.ltb_spec (output link) n); [|lia]. simpl.
    destruct (lookup_lt_is_Some_2 (outputs input_tx) (Z.to_nat (output link)))
      as [out Hout]; [lia|].
    exists out. rewrite Hout. split; reflexivity.
  - intros [Hn H0].
    destruct (Z.leb_spec 0 (output link)); [lia|]. simpl.
    destruct (Z.leb_spec (- n) (output link)); [|lia].
    destruct (Z.ltb_spec (output link) 0); [|lia]. simpl.
    destruct (lookup_lt_is_Some_2 (outputs input_tx)
                (Z.to_nat (output link + n))) as [out Hout]; [lia|].
    exists out. rewrite Hout. split; reflexivity.
  - intros [Hlow | Hhigh].
    + destruct (Z.leb_spec 0 (output link)); [lia|]. simpl.
      destruct (Z.leb_spec (- n) (output link)); [lia|]. reflexivity.
    + destruct (Z.leb_spec 0 (output link)); [|lia].
      destruct (Z.ltb_spec (output link) n); [lia|]. simpl.
      destruct (Z.leb_spec (- n) (output link)); [|lia].
      destruct (Z.ltb_spec (output link) 0); [lia|]. reflexivity.
Qed.

End MoreTransferFacts.

(** ** The constructor, [from_dict] and the registry *)

Lemma Transaction_init_Ok (cls : TxClass) (op ast : json)
    (ins : list Input) (outs : list Output) (md ver hash_id : json)
    (txd : option json) (t : Transaction) :
  Transaction_init cls op ast ins outs md ver hash_id txd = Ok t ->
  op = JStr (operation t) /\
  operation t ∈ cls_ALLOWED_OPERATIONS cls /\
  (operation t = CREATE -> ast = JNull \/ dict_with "data" ast = true) /\
  (operation t = TRANSFER -> dict_with "id" ast = true) /\
  (md = JNull \/ is_dict md = true) /\
  version t = (if is_none ver then JStr VERSION else ver) /\
  asset t = ast /\ inputs t = ins /\ outputs t = outs /\ metadata t = md /\
  _id t = hash_id /\ tx_dict t = txd.
Proof.
  unfold Transaction_init, allowed_operation.
  destruct op as [| | |s| |]; try discriminate.
  destruct (bool_decide (s ∈ cls_ALLOWED_OPERATIONS cls)) eqn:Hal;
    [|discriminate].
  apply bool_decide_eq_true in Hal.
  destruct (String.eqb s CREATE && negb (is_none ast)
            && negb (dict_with "data" ast)) eqn:Hc; [discriminate|].
  destruct (String.eqb s TRANSFER && negb (dict_with "id" ast)) eqn:Ht;
    [discriminate|].
  destruct (negb (is_none md) && negb (is_dict md)) eqn:Hm; [discriminate|].
  intros [= <-]. simpl. repeat split; try reflexivity; try assumption.
  - intros ->. rewrite String.eqb_refl in Hc.
    destruct (is_none ast) eqn:Hn.
    + left. destruct ast; try discriminate. reflexivity.
    + right. destruct (dict_with "data" ast); [reflexivity | discriminate].
  - intros ->. rewrite String.eqb_refl in Ht. simpl in Ht.
    destruct (dict_with "id" ast); [reflexivity | discriminate].
  - destruct md; try discriminate; [left | right]; reflexivity.
Qed.

(** X15.  A transaction the constructor returns has an operation its
    class allows, an asset of the shape the operation asks for ([None] or
    a dict with [data] for [CREATE], a dict with [id] for [TRANSFER]), a
    metadata that is [None] or a dict, and the version given, or ["2.0"]
    when the version given is [None]; the other attributes are the
    arguments. *)
Theorem Transaction_init_invariants (cls : TxClass) (op ast : json)
    (ins : list Input) (outs : list Output) (md ver hash_id : json)
    (txd : option json) (t : Transaction) :
  Transaction_init cls op ast ins outs md ver hash_id txd = Ok t ->
  op = JStr (operation t) /\
  operation t ∈ cls_ALLOWED_OPERATIONS cls /\
  (operation t = CREATE -> ast = JNull \/ dict_with "data" ast = true) /\
  (operation t = TRANSFER -> dict_with "id" ast = true) /\
  (md = JNull \/ is_dict md = true) /\
  version t = (if is_none ver then JStr VERSION else ver) /\
  asset t = ast /\ inputs t = ins /\ outputs t = outs /\ metadata t = md /\
  _id t = hash_id /\ tx_dict t = txd.
Proof. apply Transaction_init_Ok. Qed.

Section MoreFromDictFacts.
Context `{Imports}.

(** X16.  The transaction [from_dict] returns holds the dict it was
    read from, has the operation, asset, metadata and id of the dict, its
    version (["2.0"] when the dict has [None] there), and the inputs and
    outputs that [Input.from_dict] and [Output.from_dict] read from the
    elements of [inputs] and [outputs]; its operation is allowed by the
    class the registry resolves for it.  With the validation switched on,
    the dict has passed [validate_id]. *)
Theorem from_dict_fields (type_registry : gmap string TxClass) (tx : json)
    (skip_schema_validation : bool) (t : Transaction) :
  from_dict type_registry tx skip_schema_validation = Ok t ->
  tx_dict t = Some tx /\
  getitem tx "operation" = Ok (JStr (operation t)) /\
  getitem tx "asset" = Ok (asset t) /\
  getitem tx "metadata" = Ok (metadata t) /\
  getitem tx "id" = Ok (_id t) /\
  (exists v, getitem tx "version" = Ok v /\
             version t = if is_none v then JStr VERSION else v) /\
  (exists ins, (l ← getitem tx "inputs"; iterate l) = Ok ins /\
               mapM Input_from_dict ins = Ok (inputs t)) /\
  (exists outs, (l ← getitem tx "outputs"; iterate l) = Ok outs /\
                mapM Output_from_dict outs = Ok (outputs t)) /\
  (exists cls, resolve_class type_registry (JStr (operation t)) = Ok (Some cls) /\
               operation t ∈ cls_ALLOWED_OPERATIONS cls) /\
  (skip_schema_validation = false -> validate_id tx = Ok tt).
Proof.
  unfold from_dict. intros Hf.
  destruct tx as [|?|?|?|?|d];
    try (exfalso; simpl in Hf;
         destruct (type_registry !! CREATE) as [c|], skip_schema_validation;
         simpl in Hf; try discriminate;
         match type of Hf with
         | context [validate_id ?x] =>
             destruct (validate_id x) as [[]|]; simpl in Hf; try discriminate
         end;
         destruct (cls_validate_schema c _) as [[]|]; simpl in Hf;
         discriminate).
  set (opj := match dict_get d "operation" with
              | Some op => op | None => JStr CREATE end) in Hf.
  destruct (resolve_class type_registry opj) as [cls|] eqn:Hcls;
    [|discriminate]. simpl in Hf.
  destruct (if skip_schema_validation then Ok tt else _) as [[]|] eqn:Hval;
    [|discriminate]. simpl in Hf.
  destruct (dict_get d "inputs") as [insj|] eqn:Hi; [|discriminate].
  simpl in Hf.
  destruct (iterate insj) as [ins|] eqn:Hii; [|discriminate]. simpl in Hf.
  destruct (mapM Input_from_dict ins) as [inputs_|] eqn:Hmi; [|discriminate].
  simpl in Hf.
  destruct (dict_get d "outputs") as [outsj|] eqn:Ho; [|discriminate].
  simpl in Hf.
  destruct (iterate outsj) as [outs|] eqn:Hoo; [|discriminate]. simpl in Hf.
  destruct (mapM Output_from_dict outs) as [outputs_|] eqn:Hmo; [|discriminate].
  simpl in Hf.
  destruct (dict_get d "operation") as [op|] eqn:Hop; [|discriminate].
  simpl in Hf.
  destruct (dict_get d "asset") as [ast|] eqn:Hast; [|discriminate].
  simpl in Hf.
  destruct (dict_get d "metadata") as [md|] eqn:Hmd; [|discriminate].
  simpl in Hf.
  destruct (dict_get d "version") as [ver|] eqn:Hver; [|discriminate].
  simpl in Hf.
  destruct (dict_get d "id") as [hid|] eqn:Hid; [|discriminate].
  simpl in Hf.
  destruct cls as [cls|]; [|discriminate].
  destruct (Transaction_init_Ok _ _ _ _ _ _ _ _ _ _ Hf)
    as (-> & Hal & _ & _ & _ & Hv & -> & -> & -> & -> & -> & ->).
  simpl. rewrite Hi, Ho, Hop, Hast, Hmd, Hver, Hid. simpl.
  rewrite Hii, Hoo.
  repeat split; try reflexivity; eauto.
  intros ->. destruct (validate_id (JDict d)) as [[]|]; [reflexivity|].
  discriminate.
Qed.

(** X17.  After [register_type(tx_type, tx_class)], [resolve_class]
    answers with [tx_class] for [tx_type]; for the other operations it
    answers as before when [tx_type] is not [CREATE]; and it answers
    [None] exactly for an operation that is not registered in a registry
    without [CREATE]. *)
Theorem resolve_class_register (type_registry : gmap string TxClass)
    (tx_type : string) (tx_class : TxClass) :
  resolve_class (register_type type_registry tx_type tx_class) (JStr tx_type)
    = Ok (Some tx_class) /\
  (forall op,
     op <> tx_type -> tx_type <> CREATE ->
     resolve_class (register_type type_registry tx_type tx_class) (JStr op)
       = resolve_class type_registry (JStr op)) /\
  (forall op,
     resolve_class type_registry (JStr op) = Ok None <->
     type_registry !! op = None /\ type_registry !! CREATE = None).
Proof.
  unfold resolve_class, register_type. split; [|split].
  - rewrite lookup_insert_eq. reflexivity.
  - intros op Hop Hcreate.
    rewrite !lookup_insert_ne by congruence. reflexivity.
  - intros op. destruct (type_registry !! op) as [c|];
      destruct (type_registry !! CREATE) as [c'|];
      split; try discriminate; try (intros [[=] [=]]); try tauto;
      intros [[=] _] || intros [_ [=]].
Qed.

(** X18.  [inputs_valid] for a [CREATE] transaction does not look at the
    outputs it is given.  For a [TRANSFER] transaction it raises
    [TypeError] without outputs and [ValueError] when the number of
    outputs is not the number of inputs.  For any other operation it
    raises [TypeError]. *)
Theorem inputs_valid_arguments (self : Transaction) :
  (operation self = CREATE ->
   forall outs, inputs_valid self outs = inputs_valid self None) /\
  (operation self = TRANSFER ->
   inputs_valid self None = Raise TypeError /\
   forall outs,
     length outs <> length (inputs self) ->
     inputs_valid self (Some outs) = Raise ValueError) /\
  (operation self <> CREATE -> operation self <> TRANSFER ->
   forall outs, inputs_valid self outs = Raise TypeError).
Proof.
  unfold inputs_valid. split; [|split].
  - intros ->. reflexivity.
  - intros ->. simpl. split; [reflexivity|].
    intros outs Hlen. unfold _inputs_valid. rewrite length_map.
    destruct (Nat.eqb_spec (length (inputs self)) (length outs));
      [congruence | reflexivity].
  - intros Hc Ht outs.
    destruct (String.eqb_spec (operation self) CREATE); [contradiction|].
    destruct (String.eqb_spec (operation self) TRANSFER); [contradiction|].
    reflexivity.
Qed.

End MoreFromDictFacts.

(** ** A transaction signed for the first time *)

Section SignFreshFacts.
Context `{Imports}.

Lemma gen_key_pairs_lookup (private_keys : list string) (pk sk : string) :
  gen_key_pairs private_keys !! pk = Some sk ->
  sk ∈ private_keys /\ gen_public_key sk = pk.
Proof.
  unfold gen_key_pairs. intros Hm.
  destruct (gen_key_pairs_foldl _ _ _ _ Hm) as [Hin|He]; [exact Hin|].
  rewrite lookup_empty in He. discriminate.
Qed.

Lemma _remove_signatures_to_dict (self : Transaction) :
  _remove_signatures (to_dict self) =
  if forallb is_dict (map Input_to_dict (inputs self))
  then Ok (JDict [ ("inputs",
                    JList (map strip_fulfillment
                             (map Input_to_dict (inputs self))));
                   ("outputs", JList (map Output_to_dict (outputs self)));
                   ("operation", JStr (operation self));
                   ("metadata", metadata self);
                   ("asset", asset self);
                   ("version", version self);
                   ("id", _id self) ])
  else Raise TypeError.
Proof.
  unfold _remove_signatures, to_dict, deepcopy. simpl.
  rewrite strip_inputs.
  destruct (forallb is_dict (map Input_to_dict (inputs self))); reflexivity.
Qed.

Lemma is_dict_strip_fulfillment (v : json) :
  is_dict (strip_fulfillment v) = is_dict v.
Proof. destruct v; reflexivity. Qed.

(** X23.  A [CREATE] transaction without an id and without a cached
    dict, signed with success, passes [inputs_valid]: the message [sign]
    signs is the message [inputs_valid] checks.  The inputs are Ed25519
    leaves; the dict of an input depends on its fulfillment under the key
    [fulfillment] only; and the library accepts what it signs: the leaf it
    signs for a private key of the list serializes to a URI that parses
    to a fulfillment valid for the message signed. *)
Theorem sign_fresh_inputs_valid (self self' : Transaction)
    (private_keys : list string) (message : string) :
  _id self = JNull ->
  tx_dict self = None ->
  operation self = CREATE ->
  (forall input_ f,
     strip_fulfillment (Input_to_dict (with_fulfillment input_ f)) =
     strip_fulfillment (Input_to_dict input_)) ->
  validation_message self = Ok message ->
  Forall (fun input_ =>
            (exists pk sg, fulfillment input_ = Some (Ed25519Sha256 pk sg)) /\
            forall sk,
              sk ∈ private_keys ->
              exists uri parsed,
                serialize_uri
                  (signed_leaf (input_message message (fulfills input_))
                     (b58decode sk)) = Ok uri /\
                from_uri uri = Ok parsed /\
                validate parsed (input_message message (fulfills input_))
                  = Ok true)
    (inputs self) ->
  sign self (Some private_keys) = (self', Ok tt) ->
  inputs_valid self' None = Ok true.
Proof.
  intros Hid Htd Hop Hstrip Hmsg Hall Hsign.
  unfold validation_message in Hmsg. rewrite Htd in Hmsg.
  unfold sign in Hsign.
  rewrite _remove_signatures_to_dict in Hmsg, Hsign.
  destruct (forallb is_dict (map Input_to_dict (inputs self))) eqn:Hdicts;
    [|discriminate].
  rewrite Hid in Hsign.
  set (unsigned :=
         JDict [ ("inputs",
                  JList (map strip_fulfillment
                           (map Input_to_dict (inputs self))));
                 ("outputs", JList (map Output_to_dict (outputs self)));
                 ("operation", JStr (operation self));
                 ("metadata", metadata self);
                 ("asset", asset self);
                 ("version", version self);
                 ("id", JNull) ]) in Hsign.
  assert (Hm : _to_str unsigned = message).
  { change (Ok (_to_str unsigned) = Ok message) in Hmsg.
    injection Hmsg as E. exact E. }
  clear Hmsg. rename Hm into Hmsg.
  cbv beta iota zeta in Hsign. rewrite Hmsg in Hsign.
  destruct (sign_inputs (inputs self) 0 self message
              (gen_key_pairs private_keys)) as [self1 r] eqn:Hs.
  destruct r as [[]|e]; [|discriminate]. injection Hsign as <-.
  destruct (sign_inputs_spec _ _ (inputs self) [] self self1 (Ok tt) eq_refl Hs)
    as (reached & rest & signed & Hin & Hf & Hself & ->).
  rewrite app_nil_r in Hin. subst reached. simpl in Hself.
  rewrite app_nil_r in Hself.
  (* every signed input is the input with a leaf the library accepts *)
  assert (Hsigned :
            Forall2 (fun input_ s =>
                       exists sk,
                         sk ∈ private_keys /\
                         s = with_fulfillment input_
                               (signed_leaf
                                  (input_message message (fulfills input_))
                                  (b58decode sk)))
              (inputs self) signed).
  { clear Hs Hself Hdicts Hmsg.
    induction Hf as [|input_ s ins ss Hsi _ IH]; [constructor|].
    apply Forall_cons in Hall as [[(pk & sg & Hfk) _] Hall].
    constructor; [|apply IH, Hall].
    unfold _sign_input in Hsi. rewrite Hfk in Hsi.
    unfold _sign_simple_signature_fulfillment, deepcopy in Hsi.
    destruct (py_index (owners_before input_) 0) as [owner|]; [|discriminate].
    simpl in Hsi.
    destruct (gen_key_pairs private_keys !! owner) as [sk|] eqn:Hk;
      [|discriminate].
    injection Hsi as <-. exists sk. split; [|reflexivity].
    apply (gen_key_pairs_lookup _ _ _ Hk). }
  assert (Hsame : map strip_fulfillment (map Input_to_dict signed) =
                  map strip_fulfillment (map Input_to_dict (inputs self))).
  { clear Hs Hself Hdicts Hmsg Hf Hall.
    induction Hsigned as [|input_ s ins ss (sk & _ & ->) _ IH];
      [reflexivity|].
    simpl. rewrite Hstrip, IH. reflexivity. }
  assert (Hdicts' : forallb is_dict (map Input_to_dict signed) = true).
  { assert (E : forall l l' : list json,
                map strip_fulfillment l = map strip_fulfillment l' ->
                forallb is_dict l = forallb is_dict l').
    { induction l as [|x l IHl]; intros [|x' l'] E; try discriminate;
        [reflexivity|].
      simpl in *. injection E as Ex El.
      rewrite <- (is_dict_strip_fulfillment x), Ex,
        is_dict_strip_fulfillment, (IHl l' El). reflexivity. }
    rewrite (E _ _ Hsame). exact Hdicts. }
  unfold inputs_valid.
  replace (operation (_hash self1)) with CREATE
    by (subst self1; symmetry; exact Hop).
  rewrite String.eqb_refl.
  unfold _inputs_valid. rewrite length_map, Nat.eqb_refl. simpl.
  assert (Hmsg' : validation_message (_hash self1) = Ok message).
  { unfold validation_message.
    replace (tx_dict (_hash self1)) with (@None json)
      by (subst self1; symmetry; exact Htd).
    rewrite _remove_signatures_to_dict.
    replace (inputs (_hash self1)) with signed by (subst self1; reflexivity).
    rewrite Hdicts', Hsame. subst self1.
    rewrite <- Hmsg. reflexivity. }
  rewrite Hmsg'. simpl.
  apply all_valid_true_iff. intros k uri Hk.
  rewrite list_lookup_fmap in Hk.
  replace (inputs self1) with signed in Hk by (rewrite Hself; reflexivity).
  destruct (signed !! k) as [s|] eqn:Hsk; [|simpl in Hk; discriminate].
  exists s. split; [rewrite Hself; exact Hsk|].
  destruct (Forall2_lookup_r _ _ _ _ _ Hsigned Hsk)
    as (input_ & Hik & sk & Hin & ->).
  rewrite Forall_lookup in Hall.
  destruct (Hall k input_ Hik) as [_ Hlib].
  destruct (Hlib sk Hin) as (uri' & parsed & Hser & Hparse & Hvalid).
  unfold _input_valid. simpl.
  rewrite Hser. simpl. rewrite Hparse.
  replace (operation (_hash self1)) with CREATE
    by (subst self1; symmetry; exact Hop).
  rewrite String.eqb_refl. rewrite Hvalid. reflexivity.
Qed.

End SignFreshFacts.


(** ** Signing a threshold input *)

Section ThresholdFacts.
Context `{Imports}.

Lemma sign_owners_missing_key (message : string)
    (key_pairs : gmap string string) (owners : list string) (owner : string) :
  owner ∈ owners ->
  key_pairs !! owner = None ->
  forall ccffill,
    sign_owners message key_pairs ccffill owners
      = Raise KeypairMismatchException.
Proof.
  intros Hin Hkey.
  induction owners as [|o owners IH]; intros ccffill; [inversion Hin|].
  simpl. unfold sign_owner.
  destruct (get_subcondition_from_vk ccffill (b58decode o)) as [|leaf leaves];
    [reflexivity|].
  destruct (key_pairs !! o) as [private_key|] eqn:Ho; [|reflexivity].
  simpl. apply IH.
  apply elem_of_cons in Hin as [-> | Hin]; [congruence | exact Hin].
Qed.

(** X24.  Signing a threshold input needs the private key of every
    owner: when one of [owners_before] has no entry in [key_pairs],
    [_sign_threshold_signature_fulfillment] raises
    [KeypairMismatchException], whatever the order in which the owners are
    visited. *)
Theorem _sign_threshold_missing_key (input_ : Input) (message : string)
    (key_pairs : gmap string string) (ccffill : Fulfillment)
    (owner : string) :
  fulfillment input_ = Some ccffill ->
  owner ∈ owners_before input_ ->
  key_pairs !! owner = None ->
  _sign_threshold_signature_fulfillment input_ message key_pairs
    = Raise KeypairMismatchException.
Proof.
  intros Hf Hin Hkey.
  unfold _sign_threshold_signature_fulfillment, deepcopy. rewrite Hf.
  rewrite (sign_owners_missing_key _ key_pairs
             (remove_dups (owners_before input_)) owner);
    [reflexivity | apply elem_of_remove_dups; exact Hin | exact Hkey].
Qed.

End ThresholdFacts.

(** ** The properties above on the sample transactions *)

Module SampleFacts.
Import Samples MoreSamples TransferSamples UtxoSamples.

(** [unspent_outputs_spec] at [prior_tx], which has two outputs. *)
Lemma unspent_outputs_spec_witness :
  @unspent_outputs stand_in prior_tx = Ok prior_utxos /\
  length prior_utxos = length (outputs prior_tx).
Proof.
  assert (Hu : @unspent_outputs stand_in prior_tx = Ok prior_utxos)
    by (vm_compute; reflexivity).
  split; [exact Hu|].
  exact (proj1 (@unspent_outputs_spec stand_in prior_tx prior_utxos Hu)).
Defined.

(** [to_inputs_all] at [prior_tx]: the inputs are [spend 0] and
    [spend 1]. *)
Lemma to_inputs_all_witness :
  _id prior_tx = JStr (id_of prior_tx) /\
  to_inputs prior_tx None = Ok [spend 0; spend 1] /\
  to_inputs prior_tx (Some []) = to_inputs prior_tx None.
Proof.
  assert (Hid : _id prior_tx = JStr (id_of prior_tx))
    by (vm_compute; reflexivity).
  split; [exact Hid|].
  destruct (to_inputs_all prior_tx (id_of prior_tx) Hid) as [Hall Hnil].
  split; [|exact Hnil].
  etransitivity; [exact Hall|]. vm_compute. reflexivity.
Defined.

(** [to_inputs_point_back] at [prior_tx] in the store [planet]: the
    second input points at the second output. *)
Lemma to_inputs_point_back_witness :
  get_transaction planet (id_of prior_tx) = Some prior_tx /\
  to_inputs prior_tx None = Ok [spend 0; spend 1] /\
  pointed_output planet [] (spend 1) = Some second_output.
Proof.
  assert (Hid : _id prior_tx = JStr (id_of prior_tx))
    by (vm_compute; reflexivity).
  assert (Hget : get_transaction planet (id_of prior_tx) = Some prior_tx)
    by (vm_compute; reflexivity).
  assert (Hins : to_inputs prior_tx None = Ok [spend 0; spend 1])
    by (vm_compute; reflexivity).
  split; [exact Hget|]. split; [exact Hins|].
  etransitivity;
    [exact (proj2 (to_inputs_point_back prior_tx (id_of prior_tx) planet []
                     [spend 0; spend 1] Hid Hget Hins)
              1%nat (spend 1) eq_refl)|].
  vm_compute. reflexivity.
Defined.


(** [sign_succeeds] at [create_tx], whose one input is alice's, with
    alice's key. *)
Lemma sign_succeeds_witness :
  exists self', @sign stand_in create_tx (Some ["alice"]) = (self', Ok tt).
Proof.
  apply (@sign_succeeds stand_in create_tx ["alice"]).
  - exists (match _remove_signatures (@to_dict stand_in create_tx) with
            | Ok d => d
            | Raise _ => JNull
            end).
    vm_compute. reflexivity.
  - apply List.Forall_cons; [|apply List.Forall_nil].
    exists (Some alice), None, alice, [], "alice".
    split; [reflexivity|]. split; [reflexivity|].
    split; [left | reflexivity].
Defined.

(** [_remove_signatures_spec] at [signed_create_dict]. *)
Lemma _remove_signatures_spec_witness :
  _remove_signatures (JDict signed_create_dict) = Ok unsigned_create_dict /\
  _remove_signatures unsigned_create_dict = Ok unsigned_create_dict.
Proof.
  assert (Hr : _remove_signatures (JDict signed_create_dict)
               = Ok unsigned_create_dict)
    by (vm_compute; reflexivity).
  split; [exact Hr|].
  exact (proj2 (_remove_signatures_spec signed_create_dict
                  [ JDict
                      [ ("owners_before", JList [JStr "pub-alice"]);
                        ("fulfills", JNull);
                        ("fulfillment",
                         JStr ("cf:E;pub-alice;sig-alice-"
                               ++ "65a3275b2eb6250047eaf4c89e0cfa7e"
                               ++ "fbb81f937b55de9050c572f13db83766")) ] ]
                  eq_refl)
           unsigned_create_dict Hr).
Defined.


(** [validate_transfer_inputs_no_inputs] at [transfer_nothing]. *)
Lemma validate_transfer_inputs_no_inputs_witness :
  inputs transfer_nothing = [] /\
  @validate_transfer_inputs stand_in transfer_nothing planet []
    = Raise KeyError.
Proof.
  split; [reflexivity|].
  apply (@validate_transfer_inputs_no_inputs stand_in). reflexivity.
Defined.

(** [resolve_input_index] at the link to output [-1] of [prior_tx]: it
    resolves to the second, the last, output. *)
Lemma resolve_input_index_witness :
  resolve_input planet [] (spend (-1)) = Ok (prior_tx, second_output).
Proof.
  assert (Hget : get_transaction planet (id_of prior_tx) = Some prior_tx)
    by (vm_compute; reflexivity).
  assert (Hlen : Z.of_nat (length (outputs prior_tx)) = 2)
    by (vm_compute; reflexivity).
  destruct (proj1 (proj2 (resolve_input_index planet [] (spend (-1))
                            {| txid := id_of prior_tx; output := -1 |}
                            prior_tx eq_refl Hget eq_refl)))
    as (out & Hout & Hres).
  - simpl output. rewrite Hlen. lia.
  - assert (Ho : Some out = Some second_output)
      by (rewrite <- Hout; vm_compute; reflexivity).
    injection Ho as <-. exact Hres.
Defined.

(** [Transaction_init_invariants] at the arguments of [create_tx], with
    [None] for the version. *)
Lemma Transaction_init_invariants_witness :
  Transaction_init Transaction_class (JStr CREATE) (asset create_tx)
    (inputs create_tx) (outputs create_tx) JNull JNull JNull None
    = Ok create_tx /\
  version create_tx = JStr VERSION /\
  operation create_tx ∈ cls_ALLOWED_OPERATIONS Transaction_class.
Proof.
  assert (Hi : Transaction_init Transaction_class (JStr CREATE)
                 (asset create_tx) (inputs create_tx) (outputs create_tx)
                 JNull JNull JNull None = Ok create_tx)
    by (vm_compute; reflexivity).
  split; [exact Hi|].
  pose proof (Transaction_init_invariants _ _ _ _ _ _ _ _ _ _ Hi) as P.
  split; [apply P | apply P].
Defined.

(** [from_dict_fields] at [signed_create_dict], read with the validation
    switched on. *)
Lemma from_dict_fields_witness :
  exists t,
    @from_dict stand_in base_registry (JDict signed_create_dict) false = Ok t /\
    tx_dict t = Some (JDict signed_create_dict) /\
    validate_id (JDict signed_create_dict) = Ok tt.
Proof.
  destruct (@from_dict stand_in base_registry (JDict signed_create_dict) false)
    as [t|e] eqn:Hf.
  - exists t. split; [reflexivity|].
    pose proof (@from_dict_fields stand_in _ _ _ _ Hf) as P.
    split; [apply P | apply P; reflexivity].
  - exfalso. revert Hf. vm_compute. discriminate.
Defined.

(** [sign_fresh_validate_id] at [create_tx] signed with alice's key. *)
Lemma sign_fresh_validate_id_witness :
  _id create_tx = JNull /\
  @sign stand_in create_tx (Some ["alice"]) = (signed_create_tx, Ok tt) /\
  validate_id (@to_dict stand_in signed_create_tx) = Ok tt.
Proof.
  assert (Hs : @sign stand_in create_tx (Some ["alice"])
               = (signed_create_tx, Ok tt))
    by (vm_compute; reflexivity).
  split; [reflexivity|]. split; [exact Hs|].
  exact (@sign_fresh_validate_id stand_in create_tx signed_create_tx
           ["alice"] eq_refl Hs).
Defined.

(** [sign_fresh_inputs_valid] at [create_tx] signed with alice's key. *)
Lemma sign_fresh_inputs_valid_witness :
  @validation_message stand_in create_tx = Ok create_message /\
  @sign stand_in create_tx (Some ["alice"]) = (signed_create_tx, Ok tt) /\
  @inputs_valid stand_in signed_create_tx None = Ok true.
Proof.
  assert (Hm : @validation_message stand_in create_tx = Ok create_message)
    by (vm_compute; reflexivity).
  assert (Hs : @sign stand_in create_tx (Some ["alice"])
               = (signed_create_tx, Ok tt))
    by (vm_compute; reflexivity).
  split; [exact Hm|]. split; [exact Hs|].
  apply (@sign_fresh_inputs_valid stand_in create_tx signed_create_tx
           ["alice"] create_message eq_refl eq_refl eq_refl);
    [| exact Hm | | exact Hs].
  - intros input_ f. reflexivity.
  - apply List.Forall_cons; [|apply List.Forall_nil].
    split; [exists (Some alice), None; reflexivity|].
    intros sk Hsk.
    apply elem_of_cons in Hsk as [-> | Hsk]; [|inversion Hsk].
    exists ("cf:E;pub-alice;sig-alice-"
            ++ "65a3275b2eb6250047eaf4c89e0cfa7e"
            ++ "fbb81f937b55de9050c572f13db83766")%string,
           (Ed25519Sha256 (Some "pub-alice")
              (Some ("sig-alice-"
                     ++ "65a3275b2eb6250047eaf4c89e0cfa7e"
                     ++ "fbb81f937b55de9050c572f13db83766")%string)).
    split; [vm_compute; reflexivity|].
    split; vm_compute; reflexivity.
Defined.

(** [_sign_threshold_missing_key] at the threshold input of bob and
    carol, with alice's key alone. *)
Lemma _sign_threshold_missing_key_witness :
  @gen_key_pairs stand_in ["alice"] !! bob = None /\
  @_sign_threshold_signature_fulfillment stand_in bob_carol_input "message"
    (@gen_key_pairs stand_in ["alice"])
    = Raise KeypairMismatchException.
Proof.
  assert (Hk : @gen_key_pairs stand_in ["alice"] !! bob = None)
    by (vm_compute; reflexivity).
  split; [exact Hk|].
  apply (@_sign_threshold_missing_key stand_in bob_carol_input "message"
           (@gen_key_pairs stand_in ["alice"])
           (ThresholdSha256 2 [unsigned_leaf bob; unsigned_leaf carol])
           bob eq_refl).
  - left.
  - exact Hk.
Defined.

End SampleFacts.
